(** * light-tracking: timer state machine and time-slot store

    A shallow embedding of the Go packages [models] (the TimeSlot struct)
    and [app] (Database in internal/app/database.go, Timer and App), and of
    the save handler of the edit dialog
    (frontend/src/components/EditTimeSlotModal.tsx), with the proofs of the
    properties the specification states about them.

    Conventions of the embedding.
    - A [time.Time] is a wall-clock instant in nanoseconds together with
      the optional monotonic reading that [time.Now] attaches; a
      [time.Duration] is an int64 count of nanoseconds, and [Sub]
      saturates as the Go library does.
    - [int64(d.Seconds())] is the truncation toward zero of the duration
      to whole seconds ([Z.quot]); the float64 rounding of the fractional
      part inside [Seconds] is not represented.
    - The SQLite table [time_slots] is the list of its rows in rowid
      order together with the AUTOINCREMENT counter.  Every SQL statement
      is atomic: it either takes effect or fails and changes nothing.
      Whether a statement fails in the engine is decided by the
      environment, given to each operation as a [fault] argument; the
      clock readings of [time.Now] are given the same way.  DATETIME
      values are compared as instants, SUM is the sum of integers, and
      scanning a row into Go values does not fail.
    - A Go pointer result [*models.TimeSlot] is an [option]; a Go
      [(value, error)] pair is a [result]. *)

From stdpp Require Import base list sorting gmap strings.
From stdpp Require Import pretty.
From Stdlib Require Import ZArith Lia.

Local Open Scope Z_scope.

(** ** Errors *)

Inductive error : Type :=
| ErrNoRows                                (* sql.ErrNoRows *)
| ErrDriver (detail : string)              (* a failure of the storage engine *)
| ErrParse (text : string)                 (* time.Parse on a malformed text *)
| Errorf (msg : string) (cause : error).   (* fmt.Errorf("msg: %w", cause) *)

Inductive result (A : Type) : Type :=
| Ok (a : A)
| Err (e : error).
Arguments Ok {A} a.
Arguments Err {A} e.

(** The outcome the environment chooses for one SQL statement:
    [None] when the engine executes it, [Some detail] when it fails. *)
Definition fault : Type := option string.

(** ** Package time *)

Module time.

Definition Duration : Type := Z.

Definition Nanosecond : Duration := 1.
Definition Second : Duration := 1000000000 * Nanosecond.
Definition Minute : Duration := 60 * Second.
Definition Hour : Duration := 60 * Minute.

Definition minDuration : Duration := - 2 ^ 63.
Definition maxDuration : Duration := 2 ^ 63 - 1.

Record Time : Type := mkTime {
  wall : Z;           (* nanoseconds since the Unix epoch *)
  mono : option Z     (* monotonic clock reading, present on time.Now() *)
}.

(** The zero value of [time.Time]: January 1, year 1, 00:00:00 UTC. *)
Definition zero : Time := mkTime (- 62135596800 * Second) None.

Definition saturate (d : Z) : Duration :=
  if d <? minDuration then minDuration
  else if maxDuration <? d then maxDuration
  else d.

(** [t.Sub(u)]: on the monotonic readings when both times carry one,
    on the wall clock otherwise; saturating. *)
Definition Sub (t u : Time) : Duration :=
  saturate (match mono t, mono u with
            | Some a, Some b => a - b
            | _, _ => wall t - wall u
            end).

(** [t.Add(d)]. *)
Definition Add (t : Time) (d : Duration) : Time :=
  mkTime (wall t + d) ((λ m, m + d) <$> mono t).

(** [time.Since(t)] is [time.Now().Sub(t)]; [now] is the clock reading. *)
Definition Since (now t : Time) : Duration := Sub now t.

(** [int64(d.Seconds())]. *)
Definition Seconds (d : Duration) : Z := Z.quot d Second.

(** What survives a round trip through a DATETIME column: the instant,
    without the monotonic reading. *)
Definition stripMono (t : Time) : Time := mkTime (wall t) None.

End time.

(** ** Package models *)

Module TimeSlot.

Record t : Type := mk {
  ID : Z;
  TaskName : string;
  StartTime : time.Time;
  EndTime : option time.Time;
  DurationSeconds : Z
}.

Definition IsActive (ts : t) : bool :=
  match EndTime ts with
  | None => true
  | Some _ => false
  end.


End TimeSlot.

(** ** The record store (internal/app/database.go) *)

Module Database.

(** One row of [time_slots]. *)
Record Row : Type := mkRow {
  id : Z;
  task_name : string;
  start_time : Z;
  end_time : option Z;
  duration_seconds : Z
}.

Record t : Type := mk {
  rows : list Row;      (* in rowid order *)
  sequence : Z          (* sqlite_sequence: the largest id ever assigned *)
}.

#[global] Instance Row_eq_dec : EqDecision Row.
Proof. solve_decision. Defined.

(** rows.Scan into a [models.TimeSlot]. *)
Definition scan (r : Row) : TimeSlot.t :=
  TimeSlot.mk (id r) (task_name r)
    (time.mkTime (start_time r) None)
    ((λ w, time.mkTime w None) <$> end_time r)
    (duration_seconds r).

(** [WHERE id = ?], first match. *)
Definition select_id (i : Z) (l : list Row) : option Row :=
  List.find (λ r, bool_decide (id r = i)) l.

(** [UPDATE ... WHERE id = ?]. *)
Definition update_id (i : Z) (f : Row → Row) (l : list Row) : list Row :=
  (λ r, if decide (id r = i) then f r else r) <$> l.

(** The id AUTOINCREMENT gives to the next inserted row: one more than
    the largest id that was ever in the table. *)
Definition next_id (d : t) : Z :=
  1 + foldr Z.max (sequence d) (id <$> rows d).

(** [result.LastInsertId()] of the SQLite driver hands out the rowid kept
    in the result and never an error, so the second error return of the
    source is not reachable and has no [fault] here. *)
Definition CreateTimeSlot (d : t) (taskName : string) (startTime : time.Time)
    (io : fault) : t * result TimeSlot.t :=
  match io with
  | Some e => (d, Err (Errorf "failed to create time slot" (ErrDriver e)))
  | None =>
      let i := next_id d in
      (mk (rows d ++ [mkRow i taskName (time.wall startTime) None 0]) i,
       Ok (TimeSlot.mk i taskName startTime None 0))
  end.

(** [WHERE end_time IS NULL]. *)
Definition is_open (r : Row) : Prop := end_time r = None.

#[global] Instance is_open_dec r : Decision (is_open r).
Proof. unfold is_open. apply _. Defined.

(** [ORDER BY start_time DESC LIMIT 1]; among rows with the same
    start_time the one met first is kept. *)
Definition latest (l : list Row) : option Row :=
  foldl (λ acc r,
           match acc with
           | None => Some r
           | Some a => if start_time a <? start_time r then Some r else Some a
           end) None l.

Definition GetActiveTimeSlot (d : t) (io : fault) : result (option TimeSlot.t) :=
  match io with
  | Some e => Err (Errorf "failed to get active time slot" (ErrDriver e))
  | None => Ok (scan <$> latest (filter is_open (rows d)))
  end.

Definition StopTimeSlot (d : t) (i : Z) (endTime : time.Time)
    (ioSelect ioUpdate : fault) : t * option error :=
  match ioSelect with
  | Some e => (d, Some (Errorf "failed to get start time" (ErrDriver e)))
  | None =>
      match select_id i (rows d) with
      | None => (d, Some (Errorf "failed to get start time" ErrNoRows))
      | Some r =>
          let startTime := time.mkTime (start_time r) None in
          let durationSeconds := time.Seconds (time.Sub endTime startTime) in
          match ioUpdate with
          | Some e => (d, Some (Errorf "failed to stop time slot" (ErrDriver e)))
          | None =>
              (mk (update_id i
                     (λ r', mkRow (id r') (task_name r') (start_time r')
                              (Some (time.wall endTime)) durationSeconds)
                     (rows d))
                  (sequence d),
               None)
          end
      end
  end.

Definition UpdateTimeSlot (d : t) (i : Z) (taskName : string)
    (startTime : time.Time) (endTime : option time.Time)
    (io : fault) : t * option error :=
  let durationSeconds :=
    match endTime with
    | Some e => time.Seconds (time.Sub e startTime)
    | None => 0
    end in
  match io with
  | Some e => (d, Some (Errorf "failed to update time slot" (ErrDriver e)))
  | None =>
      (mk (update_id i
             (λ r', mkRow (id r') taskName (time.wall startTime)
                      (time.wall <$> endTime) durationSeconds)
             (rows d))
          (sequence d),
       None)
  end.

Definition DeleteTimeSlot (d : t) (i : Z) (io : fault) : t * option error :=
  match io with
  | Some e => (d, Some (Errorf "failed to delete time slot" (ErrDriver e)))
  | None => (mk (filter (λ r, id r ≠ i) (rows d)) (sequence d), None)
  end.

Section DayQueries.

(** The calendar of the Go library, not part of this repository:
    [midnight date] is the instant of [time.Date(date.Year(),
    date.Month(), date.Day(), 0, 0, 0, 0, date.Location())].  A time
    built by [time.Date] has no monotonic reading. *)
Variable midnight : time.Time → Z.

Definition startOfDay (date : time.Time) : time.Time :=
  time.mkTime (midnight date) None.
Definition endOfDay (date : time.Time) : time.Time :=
  time.Add (startOfDay date) (24 * time.Hour).

(** [WHERE start_time >= ? AND start_time < ?]. *)
Definition in_day (date : time.Time) (r : Row) : Prop :=
  time.wall (startOfDay date) ≤ start_time r
  ∧ start_time r < time.wall (endOfDay date).

#[global] Instance in_day_dec date r : Decision (in_day date r).
Proof. unfold in_day. apply _. Defined.

Definition by_start_asc (a b : Row) : Prop := start_time a ≤ start_time b.

#[global] Instance by_start_asc_dec a b : Decision (by_start_asc a b).
Proof. unfold by_start_asc. apply _. Defined.

Definition GetTimeSlotsByDate (d : t) (date : time.Time) (io : fault)
    : result (list TimeSlot.t) :=
  match io with
  | Some e => Err (Errorf "failed to query time slots" (ErrDriver e))
  | None =>
      Ok (scan <$> merge_sort by_start_asc (filter (in_day date) (rows d)))
  end.

(** [... AND end_time IS NOT NULL]. *)
Definition closed_in_day (date : time.Time) (r : Row) : Prop :=
  in_day date r ∧ ¬ is_open r.

#[global] Instance closed_in_day_dec date r : Decision (closed_in_day date r).
Proof. unfold closed_in_day. apply _. Defined.

Definition total (l : list Row) : Z := foldr Z.add 0 (duration_seconds <$> l).

Definition by_total_desc (a b : string * Z) : Prop := b.2 ≤ a.2.

#[global] Instance by_total_desc_dec a b : Decision (by_total_desc a b).
Proof. unfold by_total_desc. apply _. Defined.

(** [SELECT task_name, SUM(duration_seconds) ... GROUP BY task_name
    ORDER BY total_seconds DESC]: one result row per task name that has
    a selected row. *)
Definition statistics_query (date : time.Time) (l : list Row)
    : list (string * Z) :=
  let selected := filter (closed_in_day date) l in
  merge_sort by_total_desc
    ((λ n, (n, total (filter (λ r, task_name r = n) selected)))
       <$> remove_dups (task_name <$> selected)).

(** The loop [stats[taskName] = totalSeconds] over the result rows. *)
Definition GetTaskStatistics (d : t) (date : time.Time) (io : fault)
    : result (gmap string Z) :=
  match io with
  | Some e => Err (Errorf "failed to query task statistics" (ErrDriver e))
  | None =>
      Ok (foldl (λ stats kv, <[kv.1 := kv.2]> stats) ∅
            (statistics_query date (rows d)))
  end.

End DayQueries.

(** [ORDER BY start_time DESC]. *)
Definition by_start_desc (a b : Row) : Prop := start_time b ≤ start_time a.

#[global] Instance by_start_desc_dec a b : Decision (by_start_desc a b).
Proof. unfold by_start_desc. apply _. Defined.


End Database.

(** Opening the store (NewDatabase with initSchema): [disk] is the content
    of the database file, which CREATE TABLE IF NOT EXISTS leaves as it
    is; one [fault] stands for the failures of the home directory lookup,
    of the directory creation, of sql.Open and of the schema statement. *)
Definition NewDatabase (disk : Database.t) (io : fault) : result Database.t :=
  match io with
  | Some e => Err (Errorf "failed to open database" (ErrDriver e))
  | None => Ok disk
  end.

(** ** The timer (package app, type Timer) *)

Module Timer.

Record t : Type := mk {
  activeSlot : option TimeSlot.t;
  isRunning : bool;
  startTime : time.Time;
  notifyChannel : option bool     (* chan bool of capacity 1 *)
}.

Definition NewTimer : t := mk None false time.zero None.

(** [select { case ch <- v: default: }]: the value is dropped when the
    buffer is full. *)
Definition notify (v : bool) (ch : option bool) : option bool :=
  match ch with
  | None => Some v
  | Some _ => ch
  end.

(** What [Start] reads from its environment, in program order: the
    clock for the implicit stop and the outcomes of the two statements of
    StopTimeSlot, then the clock for the new slot and the outcome of the
    INSERT. *)
Record StartEnv : Type := mkStartEnv {
  stop_now : time.Time;
  stop_select : fault;
  stop_update : fault;
  create_now : time.Time;
  create_insert : fault
}.

Definition Start (tm : t) (taskName : string) (db : Database.t)
    (env : StartEnv) : t * Database.t * result (option TimeSlot.t) :=
  let stopped :=
    match activeSlot tm with
    | Some s =>
        if TimeSlot.IsActive s
        then Database.StopTimeSlot db (TimeSlot.ID s) (stop_now env)
               (stop_select env) (stop_update env)
        else (db, None)
    | None => (db, None)
    end in
  match stopped with
  | (db1, Some err) => (tm, db1, Err err)
  | (db1, None) =>
      let now := create_now env in
      match Database.CreateTimeSlot db1 taskName now (create_insert env) with
      | (db2, Err err) => (tm, db2, Err err)
      | (db2, Ok slot) =>
          (mk (Some slot) true now (notify true (notifyChannel tm)),
           db2, Ok (Some slot))
      end
  end.

Record StopEnv : Type := mkStopEnv {
  now : time.Time;
  select : fault;
  update : fault
}.

Definition Stop (tm : t) (db : Database.t) (env : StopEnv)
    : t * Database.t * result (option TimeSlot.t) :=
  match activeSlot tm with
  | None => (tm, db, Ok None)
  | Some s =>
      if negb (TimeSlot.IsActive s) then (tm, db, Ok None)
      else
        match Database.StopTimeSlot db (TimeSlot.ID s) (now env)
                (select env) (update env) with
        | (db1, Some err) => (tm, db1, Err err)
        | (db1, None) =>
            let stoppedSlot := s in
            (mk None false (startTime tm) (notify false (notifyChannel tm)),
             db1, Ok (Some stoppedSlot))
        end
  end.

Definition GetActiveSlot (tm : t) : option TimeSlot.t := activeSlot tm.

Definition IsRunning (tm : t) : bool := isRunning tm.

(** [clock] is the reading [time.Since] takes. *)
Definition GetElapsedTime (tm : t) (clock : time.Time) : time.Duration :=
  if negb (isRunning tm) || bool_decide (activeSlot tm = None) then 0
  else time.Since clock (startTime tm).

Definition LoadActiveSlot (tm : t) (db : Database.t) (io : fault)
    : t * option error :=
  match Database.GetActiveTimeSlot db io with
  | Err err => (tm, Some err)
  | Ok (Some slot) =>
      (mk (Some slot) true (TimeSlot.StartTime slot) (notifyChannel tm), None)
  | Ok None =>
      (mk None false (startTime tm) (notifyChannel tm), None)
  end.

End Timer.

(** ** The application object (package app, type App) *)

Module App.

(** The systray and notification managers only read the timer; they are
    left out. *)
Record t : Type := mk {
  database : Database.t;
  timer : Timer.t
}.

Definition NewApp (disk : Database.t) (ioOpen ioLoad : fault) : result t :=
  match NewDatabase disk ioOpen with
  | Err err => Err err
  | Ok db =>
      match Timer.LoadActiveSlot Timer.NewTimer db ioLoad with
      | (_, Some err) => Err err
      | (tm, None) => Ok (mk db tm)
      end
  end.

Definition StartTimer (a : t) (taskName : string) (env : Timer.StartEnv)
    : t * result (option TimeSlot.t) :=
  if decide (taskName = "") then (a, Ok None)
  else
    let '(tm, db, r) := Timer.Start (timer a) taskName (database a) env in
    (mk db tm, r).

Definition StopTimer (a : t) (env : Timer.StopEnv)
    : t * result (option TimeSlot.t) :=
  let '(tm, db, r) := Timer.Stop (timer a) (database a) env in
  (mk db tm, r).

Definition GetActiveTimeSlot (a : t) : option TimeSlot.t :=
  Timer.GetActiveSlot (timer a).

Definition IsTimerRunning (a : t) : bool := Timer.IsRunning (timer a).

Definition GetElapsedTime (a : t) (clock : time.Time) : Z :=
  time.Seconds (Timer.GetElapsedTime (timer a) clock).

Definition DeleteTimeSlot (a : t) (i : Z) (io : fault) : t * option error :=
  let '(db, err) := Database.DeleteTimeSlot (database a) i io in
  (mk db (timer a), err).

Section Boundary.

(** The Go library at the boundary: the calendar used by the day
    queries, and the instants [time.Parse("2006-01-02", s)] and
    [time.Parse(time.RFC3339, s)] denote.  A parsed time has no
    monotonic reading. *)
Variable midnight : time.Time → Z.
Variable parseDate : string → result Z.
Variable parseRFC3339 : string → result Z.

Definition GetTimeSlotsByDate (a : t) (dateStr : string) (io : fault)
    : result (list TimeSlot.t) :=
  match parseDate dateStr with
  | Err err => Err err
  | Ok date =>
      Database.GetTimeSlotsByDate midnight (database a)
        (time.mkTime date None) io
  end.

Definition GetTaskStatistics (a : t) (dateStr : string) (io : fault)
    : result (gmap string Z) :=
  match parseDate dateStr with
  | Err err => Err err
  | Ok date =>
      Database.GetTaskStatistics midnight (database a)
        (time.mkTime date None) io
  end.

Definition UpdateTimeSlot (a : t) (i : Z) (taskName : string)
    (startTimeStr endTimeStr : string) (io : fault) : t * option error :=
  match parseRFC3339 startTimeStr with
  | Err err => (a, Some err)
  | Ok st =>
      let startTime := time.mkTime st None in
      let parsedEnd : result (option time.Time) :=
        if decide (endTimeStr = "") then Ok None
        else match parseRFC3339 endTimeStr with
             | Err err => Err err
             | Ok et => Ok (Some (time.mkTime et None))
             end in
      match parsedEnd with
      | Err err => (a, Some err)
      | Ok endTime =>
          let '(db, err) :=
            Database.UpdateTimeSlot (database a) i taskName startTime endTime io in
          (mk db (timer a), err)
      end
  end.

End Boundary.

End App.

(** ** The edit dialog (frontend/src/components/EditTimeSlotModal.tsx) *)

Module EditTimeSlotModal.

(** What [handleSave] does with the form: it shows an alert, or it calls
    the bound UpdateTimeSlot with these arguments. *)
Inductive outcome : Type :=
| Alert (message : string)
| CallUpdate (id : Z) (taskName startTime endTime : string).

Section JavaScript.

(** The JavaScript library: [String.prototype.trim], the time value of
    [new Date(text)] in milliseconds ([None] for an Invalid Date) and
    [Date.prototype.toISOString], which throws on an Invalid Date; the
    exception is caught by the [try] of handleSave. *)
Variable trim : string → string.
Variable newDate : string → option Z.
Variable toISOString : Z → string.

Definition handleSave (slot_id : Z) (taskName startTime endTime : string)
    (hasEndTime : bool) : outcome :=
  if decide (trim taskName = "") then Alert "Task name cannot be empty"
  else
    let start := newDate startTime in
    if hasEndTime && negb (bool_decide (endTime = "")) then
      match newDate endTime, start with
      | Some e, Some s =>
          if e <=? s then Alert "End time must be after start time"
          else CallUpdate slot_id (trim taskName) (toISOString s) (toISOString e)
      | _, _ => Alert "Failed to update time slot"
      end
    else
      match start with
      | Some s => CallUpdate slot_id (trim taskName) (toISOString s) ""
      | None => Alert "Failed to update time slot"
      end.

End JavaScript.

End EditTimeSlotModal.

(** ** The timer view (frontend, component Timer) *)

Module TimerView.

(** What [handleStart] does with the text of the task input: an alert,
    or the call of the bound StartTimer with the trimmed name. *)
Inductive outcome : Type :=
| Alert (message : string)
| CallStartTimer (taskName : string).

Definition handleStart (trim : string → string) (taskName : string) : outcome :=
  if decide (trim taskName = "") then Alert "Please enter a task name"
  else CallStartTimer (trim taskName).

End TimerView.

(** ** The long-session monitor (package app, type NotificationManager) *)

Module NotificationManager.

Record t : Type := mk {
  lastNotifyTime : time.Time;
  notifyInterval : time.Duration
}.

Definition NewNotificationManager : t := mk time.zero (2 * time.Hour).

(** [fmt.Sprintf("%d", n)] is the decimal numeral [pretty n]. *)
Definition formatPlural (n : Z) (unit : string) : string :=
  if decide (n = 1) then "1 " +:+ unit
  else pretty n +:+ " " +:+ unit +:+ "s".

(** [int(d.Hours())] and [int(d.Minutes())]: truncation toward zero, as
    for [time.Seconds]. *)
Definition formatDuration (d : time.Duration) : string :=
  let hours := d `quot` time.Hour in
  let minutes := (d `quot` time.Minute) `rem` 60 in
  if 0 <? hours then
    if 0 <? minutes then
      formatPlural hours "hour" +:+ " and " +:+ formatPlural minutes "minute"
    else formatPlural hours "hour"
  else formatPlural minutes "minute".

(** int64 arithmetic wraps around. *)
Definition int64 (z : Z) : Z := (z + 2 ^ 63) `mod` 2 ^ 64 - 2 ^ 63.

(** What one tick of [monitorLongSessions] reads, in program order. The
    monitor takes the timer's lock anew for each call, so each call may see
    a different state of the application. *)
Record TickEnv : Type := mkTickEnv {
  at_IsTimerRunning : App.t;
  at_GetElapsedTime : App.t;
  clock_elapsed : time.Time;
  clock_since : time.Time;
  at_GetActiveTimeSlot : App.t;
  clock_now : time.Time
}.

(** The body of the ticker case: the manager after the tick and the
    title and message given to SendNotification, if it is called. The
    error of SendNotification is dropped by the source. *)
Definition tick (n : t) (env : TickEnv) : t * option (string * string) :=
  if App.IsTimerRunning (at_IsTimerRunning env) then
    let elapsed := App.GetElapsedTime (at_GetElapsedTime env) (clock_elapsed env) in
    let elapsedDuration := int64 (elapsed * time.Second) in
    if notifyInterval n <=? elapsedDuration then
      let timeSinceLastNotify := time.Since (clock_since env) (lastNotifyTime n) in
      if notifyInterval n <=? timeSinceLastNotify then
        match App.GetActiveTimeSlot (at_GetActiveTimeSlot env) with
        | Some activeSlot =>
            (mk (clock_now env) (notifyInterval n),
             Some ("Long Session Alert",
                   "You've been working on '" +:+ TimeSlot.TaskName activeSlot
                   +:+ "' for " +:+ formatDuration elapsedDuration))
        | None => (n, None)
        end
      else (n, None)
    else (n, None)
  else (n, None).

End NotificationManager.

(** ** The tray monitor (package app, type SystrayManager) *)

Module SystrayManager.

Record t : Type := mk {
  isRunning : bool;
  iconActive : list Byte.byte;
  iconInactive : list Byte.byte
}.

(** The calls made to the systray library. *)
Inductive command : Type :=
| SetIcon (icon : list Byte.byte)
| SetTitle (title : string).

(** [%02d]: at least two characters, padded with a zero. *)
Definition pad2 (n : Z) : string :=
  if decide (0 ≤ n ∧ n < 10) then "0" +:+ pretty n else pretty n.

Definition formatTime (hours minutes seconds : Z) : string :=
  pad2 hours +:+ ":" +:+ pad2 minutes +:+ ":" +:+ pad2 seconds.

(** What one [updateStatus] reads; each call into the application takes
    the timer's lock anew. *)
Record View : Type := mkView {
  at_IsTimerRunning : App.t;
  at_GetActiveTimeSlot : App.t;
  at_GetElapsedTime : App.t;
  clock : time.Time
}.

Definition updateStatus (s : t) (v : View) : t * list command :=
  let isRunning := App.IsTimerRunning (at_IsTimerRunning v) in
  let wasRunning := SystrayManager.isRunning s in
  let s' := mk isRunning (iconActive s) (iconInactive s) in
  if negb (eqb wasRunning isRunning) then
    let icon := if isRunning then iconActive s else iconInactive s in
    let setIcon := if (0 <? length icon)%nat then [SetIcon icon] else [] in
    let setTitle :=
      if isRunning then
        match App.GetActiveTimeSlot (at_GetActiveTimeSlot v) with
        | Some activeSlot =>
            SetTitle ("Timer: Running - " +:+ TimeSlot.TaskName activeSlot)
        | None => SetTitle "Timer: Running"
        end
      else SetTitle "Timer: Stopped" in
    (s', setIcon ++ [setTitle])
  else if isRunning then
    match App.GetActiveTimeSlot (at_GetActiveTimeSlot v) with
    | Some activeSlot =>
        let elapsed := App.GetElapsedTime (at_GetElapsedTime v) (clock v) in
        let hours := elapsed `quot` 3600 in
        let minutes := (elapsed `rem` 3600) `quot` 60 in
        let seconds := elapsed `rem` 60 in
        (s', [SetTitle ("Timer: " +:+ TimeSlot.TaskName activeSlot
                        +:+ " (" +:+ formatTime hours minutes seconds +:+ ")")])
    | None => (s', [])
    end
  else (s', []).

(** What the tray shows: the icon and the title of the status item. *)
Record Tray : Type := mkTray {
  icon : option (list Byte.byte);
  statusTitle : string
}.

Definition exec (tr : Tray) (c : command) : Tray :=
  match c with
  | SetIcon i => mkTray (Some i) (statusTitle tr)
  | SetTitle s => mkTray (icon tr) s
  end.

(** [onReady], as far as the icon and the status item go. *)
Definition onReady (s : t) : Tray :=
  mkTray (if (0 <? length (iconInactive s))%nat then Some (iconInactive s) else None)
    "Timer: Stopped".

(** [monitorTimerStatus]: one [updateStatus] per tick. *)
Definition monitor (s : t) (tr : Tray) (views : list View) : t * Tray :=
  foldl (λ st v, let '(s', cs) := updateStatus st.1 v in (s', foldl exec st.2 cs))
    (s, tr) views.

End SystrayManager.

(** ** Vocabulary of the properties *)

(** The slots of the store whose end_time is absent. *)
Definition active_rows (db : Database.t) : list Database.Row :=
  filter Database.is_open (Database.rows db).

Definition at_most_one_active (db : Database.t) : Prop :=
  (length (active_rows db) ≤ 1)%nat.

(** The timer's cached slot covers the store: every open row of the store
    is the row of the slot the timer holds as active. *)
Definition coherent (tm : Timer.t) (db : Database.t) : Prop :=
  ∀ r, r ∈ active_rows db →
    ∃ s, Timer.activeSlot tm = Some s
         ∧ TimeSlot.IsActive s = true
         ∧ TimeSlot.ID s = Database.id r.

(** The invariant of the running application. *)
Definition Inv (a : App.t) : Prop :=
  at_most_one_active (App.database a) ∧ coherent (App.timer a) (App.database a).

(** The two flags of the timer agree, and a cached slot has no end. *)
Definition settled (tm : Timer.t) : Prop :=
  match Timer.activeSlot tm with
  | Some s => Timer.isRunning tm = true ∧ TimeSlot.EndTime s = None
  | None => Timer.isRunning tm = false
  end.

(** The timer is Idle when it holds no active slot: the test of [Stop]. *)
Definition Idle (tm : Timer.t) : Prop :=
  match Timer.activeSlot tm with
  | None => True
  | Some s => TimeSlot.IsActive s = false
  end.

(** A call of the timer API with what it reads from its environment. *)
Inductive Call : Type :=
| CallStart (taskName : string) (env : Timer.StartEnv)
| CallStop (env : Timer.StopEnv).

Definition step (a : App.t) (c : Call) : App.t :=
  match c with
  | CallStart taskName env =>
      let '(tm, db, _) := Timer.Start (App.timer a) taskName (App.database a) env in
      App.mk db tm
  | CallStop env =>
      let '(tm, db, _) := Timer.Stop (App.timer a) (App.database a) env in
      App.mk db tm
  end.

Definition run (a : App.t) (calls : list Call) : App.t := foldl step a calls.

(** The store between the two store operations of [Start]: after the
    implicit stop and before the INSERT. *)
Definition store_inside (a : App.t) (c : Call) : list Database.t :=
  match c with
  | CallStart _ env =>
      match Timer.activeSlot (App.timer a) with
      | Some s =>
          if TimeSlot.IsActive s
          then [(Database.StopTimeSlot (App.database a) (TimeSlot.ID s)
                   (Timer.stop_now env) (Timer.stop_select env)
                   (Timer.stop_update env)).1]
          else []
      | None => []
      end
  | CallStop _ => []
  end.

(** Every content the store goes through while the calls execute. *)
Fixpoint trace (a : App.t) (calls : list Call) : list Database.t :=
  match calls with
  | [] => [App.database a]
  | c :: calls' => App.database a :: store_inside a c ++ trace (step a c) calls'
  end.





(** Primary key: no two rows of the table share an id, and no id is
    above the AUTOINCREMENT counter. *)
Definition well_keyed (db : Database.t) : Prop :=
  NoDup (Database.id <$> Database.rows db)
  ∧ Forall (λ r, Database.id r ≤ Database.sequence db) (Database.rows db).

(** A call of the API bound to the frontend, with what it reads from its
    environment. *)
Inductive ApiCall : Type :=
| ApiStartTimer (taskName : string) (env : Timer.StartEnv)
| ApiStopTimer (env : Timer.StopEnv)
| ApiUpdateTimeSlot (i : Z) (taskName startTimeStr endTimeStr : string) (io : fault)
| ApiDeleteTimeSlot (i : Z) (io : fault).

Definition api_step (parseRFC3339 : string → result Z) (a : App.t) (c : ApiCall)
    : App.t :=
  match c with
  | ApiStartTimer taskName env => (App.StartTimer a taskName env).1
  | ApiStopTimer env => (App.StopTimer a env).1
  | ApiUpdateTimeSlot i taskName startTimeStr endTimeStr io =>
      (App.UpdateTimeSlot parseRFC3339 a i taskName startTimeStr endTimeStr io).1
  | ApiDeleteTimeSlot i io => (App.DeleteTimeSlot a i io).1
  end.

Definition api_run (parseRFC3339 : string → result Z) (a : App.t)
    (calls : list ApiCall) : App.t :=
  foldl (api_step parseRFC3339) a calls.

(** The stored duration of a row agrees with its stored times. *)
Definition row_consistent (r : Database.Row) : Prop :=
  Database.duration_seconds r
  = match Database.end_time r with
    | Some e =>
        time.Seconds
          (time.Sub (time.mkTime e None) (time.mkTime (Database.start_time r) None))
    | None => 0
    end.


(** ** Sample data *)

(** What the tray shows agrees with the flag of the manager. *)
Definition tray_agrees (s : SystrayManager.t) (tr : SystrayManager.Tray) : Prop :=
  (SystrayManager.isRunning s = false
   ↔ SystrayManager.statusTitle tr = "Timer: Stopped")
  ∧ (SystrayManager.iconActive s ≠ [] → SystrayManager.iconInactive s ≠ [] →
     SystrayManager.icon tr
     = Some (if SystrayManager.isRunning s then SystrayManager.iconActive s
             else SystrayManager.iconInactive s)).

Module Sample.

Definition T0 : Z := 1700000000 * time.Second.

Definition at_ (secs : Z) : time.Time :=
  time.mkTime (T0 + secs * time.Second) (Some (5 * time.Second + secs * time.Second)).

Definition empty : Database.t := Database.mk [] 0.

(** One closed slot and one open slot. *)
Definition one_open : Database.t :=
  Database.mk
    [Database.mkRow 1 "email" (T0 - 7200 * time.Second)
       (Some (T0 - 3600 * time.Second)) 3600;
     Database.mkRow 2 "writing" T0 None 0]
    2.

Definition no_fault_start (t1 t2 : time.Time) : Timer.StartEnv :=
  Timer.mkStartEnv t1 None None t2 None.

Definition no_fault_stop (t1 : time.Time) : Timer.StopEnv :=
  Timer.mkStopEnv t1 None None.

(** The application right after start-up on [one_open]. *)
Definition loaded : App.t :=
  App.mk one_open
    (Timer.mk (Some (Database.scan (Database.mkRow 2 "writing" T0 None 0)))
       true (time.mkTime T0 None) None).

(** UTC calendar: midnight is the start of the 86400-second day. *)
Definition utc_midnight (t : time.Time) : Z :=
  time.wall t `div` (24 * time.Hour) * (24 * time.Hour).

(** A session: switch task, stop, stop again, a start whose INSERT
    fails, a start. *)
Definition calls : list Call :=
  [CallStart "review" (no_fault_start (at_ 100) (at_ 101));
   CallStop (no_fault_stop (at_ 200));
   CallStop (no_fault_stop (at_ 300));
   CallStart "mail" (Timer.mkStartEnv (at_ 400) None None (at_ 400) (Some "disk full"));
   CallStart "lunch" (no_fault_start (at_ 500) (at_ 500))].

(** A start during which the SELECT of the implicit stop fails. *)
Definition failing_stop : Timer.StartEnv :=
  Timer.mkStartEnv (at_ 100) (Some "database is locked") None (at_ 101) None.

(** time.Parse(time.RFC3339, _) on the two texts the samples use. *)
Definition parseRFC3339 (text : string) : result Z :=
  if decide (text = "2023-11-14T22:13:20Z") then Ok T0
  else if decide (text = "2023-11-14T22:12:20Z") then Ok (T0 - 60 * time.Second)
  else Err (ErrParse text).

(** A day with two closed slots of one task and an open slot, and a
    closed slot of the day before. *)
Definition two_days : Database.t :=
  Database.mk
    [Database.mkRow 1 "review" (T0 - 90000 * time.Second)
       (Some (T0 - 89900 * time.Second)) 100;
     Database.mkRow 2 "email" (T0 - 7200 * time.Second)
       (Some (T0 - 3600 * time.Second)) 3600;
     Database.mkRow 3 "email" (T0 - 600 * time.Second)
       (Some (T0 - 300 * time.Second)) 300;
     Database.mkRow 4 "writing" T0 None 0]
    4.

(** One closed slot: the store after a start and a stop. *)
Definition one_closed : Database.t :=
  Database.mk
    [Database.mkRow 1 "email" (T0 - 60 * time.Second) (Some T0) 60]
    1.

(** The application right after start-up on [one_closed]: the timer is
    Idle. *)
Definition idle : App.t := App.mk one_closed Timer.NewTimer.

(** The user reopens slot 1 in the edit dialog (end time unchecked). *)
Definition reopened : App.t :=
  (App.UpdateTimeSlot parseRFC3339 idle 1 "email" "2023-11-14T22:12:20Z" "" None).1.

(** A session through the API: switch task, edit slot 1, delete slot 2,
    stop. *)
Definition api_calls : list ApiCall :=
  [ApiStartTimer "review" (no_fault_start (at_ 100) (at_ 101));
   ApiUpdateTimeSlot 1 "email" "2023-11-14T22:12:20Z" "2023-11-14T22:13:20Z" None;
   ApiDeleteTimeSlot 2 None;
   ApiStopTimer (no_fault_stop (at_ 200))].

(** The JavaScript library on the texts the samples use. *)
Definition newDate (text : string) : option Z :=
  if decide (text = "2023-11-14T22:13") then Some (T0 `div` 1000000 - 20000)
  else if decide (text = "2023-11-14T22:12") then Some (T0 `div` 1000000 - 80000)
  else None.

Definition toISOString (ms : Z) : string :=
  if decide (ms = T0 `div` 1000000 - 20000) then "2023-11-14T22:13:00.000Z"
  else "2023-11-14T22:12:00.000Z".

End Sample.

(** ** The store: row selection and update *)

Section StoreLemmas.

Implicit Types (l : list Database.Row) (r : Database.Row) (i : Z)
  (db : Database.t).

Lemma select_id_Some i l r :
  Database.select_id i l = Some r → r ∈ l ∧ Database.id r = i.
Proof.
  unfold Database.select_id. intros H.
  apply List.find_some in H as [Hin Hid].
  apply bool_decide_eq_true in Hid.
  split; [by apply list_elem_of_In | done].
Qed.

Lemma select_id_None i l :
  Database.select_id i l = None → ∀ r, r ∈ l → Database.id r ≠ i.
Proof.
  unfold Database.select_id. intros H r Hr Hid.
  apply list_elem_of_In in Hr.
  pose proof (List.find_none _ _ H r Hr) as Hf. simpl in Hf.
  apply bool_decide_eq_false in Hf. done.
Qed.

Lemma select_id_found i l r :
  r ∈ l → Database.id r = i → is_Some (Database.select_id i l).
Proof.
  intros Hr Hid. destruct (Database.select_id i l) eqn:E; [by eexists|].
  exfalso. by eapply select_id_None.
Qed.

Lemma elem_of_update_id i f l r' :
  r' ∈ Database.update_id i f l ↔
  ∃ r, r ∈ l ∧ r' = (if decide (Database.id r = i) then f r else r).
Proof.
  unfold Database.update_id. rewrite list_elem_of_fmap.
  split; intros (r & H1 & H2); exists r; done.
Qed.

(** Closing the rows of id [i] leaves open exactly the open rows of the
    other ids. *)
Lemma open_after_update_id i f l :
  (∀ r, ¬ Database.is_open (f r)) →
  filter Database.is_open (Database.update_id i f l)
  = filter (λ r, Database.is_open r ∧ Database.id r ≠ i) l.
Proof.
  intros Hf. unfold Database.update_id.
  induction l as [|r l IH]; [done|].
  rewrite fmap_cons, !filter_cons, IH.
  destruct (decide (Database.id r = i)) as [Hi|Hi].
  - rewrite decide_False by apply Hf.
    rewrite decide_False by tauto. done.
  - destruct (decide (Database.is_open r)) as [Ho|Ho].
    + rewrite decide_True by tauto. done.
    + rewrite decide_False by tauto. done.
Qed.

Lemma filter_nil_iff {A} (P : A → Prop) `{!∀ x, Decision (P x)} (l : list A) :
  filter P l = [] ↔ ∀ x, x ∈ l → ¬ P x.
Proof.
  split.
  - intros Hnil x Hx HP.
    assert (x ∈ filter P l) as Hin by (apply list_elem_of_filter; done).
    rewrite Hnil in Hin. by apply not_elem_of_nil in Hin.
  - intros Hall. destruct (filter P l) as [|x l'] eqn:E; [done|].
    assert (x ∈ filter P l) as Hin by (rewrite E; left).
    apply list_elem_of_filter in Hin as [HP Hx]. by destruct (Hall x Hx).
Qed.

(** A failing StopTimeSlot leaves the store as it was. *)
Lemma StopTimeSlot_Err db i endTime ioS ioU db' err :
  Database.StopTimeSlot db i endTime ioS ioU = (db', Some err) → db' = db.
Proof.
  unfold Database.StopTimeSlot. intros H.
  destruct ioS; [by simplify_eq|].
  destruct (Database.select_id i (Database.rows db)); [|by simplify_eq].
  destruct ioU; by simplify_eq.
Qed.

(** A successful StopTimeSlot found the row and closed every row of that
    id with the given end time and the duration counted from the stored
    start time. *)
Lemma StopTimeSlot_Ok db i endTime ioS ioU db' :
  Database.StopTimeSlot db i endTime ioS ioU = (db', None) →
  ∃ r, Database.select_id i (Database.rows db) = Some r
       ∧ db' = Database.mk
                 (Database.update_id i
                    (λ r', Database.mkRow (Database.id r') (Database.task_name r')
                             (Database.start_time r')
                             (Some (time.wall endTime))
                             (time.Seconds
                                (time.Sub endTime
                                   (time.mkTime (Database.start_time r) None))))
                    (Database.rows db))
                 (Database.sequence db).
Proof.
  unfold Database.StopTimeSlot. intros H.
  destruct ioS; [by simplify_eq|].
  destruct (Database.select_id i (Database.rows db)) as [r|]; [|by simplify_eq].
  destruct ioU; simplify_eq. by exists r.
Qed.

Lemma StopTimeSlot_closes db i endTime ioS ioU db' :
  Database.StopTimeSlot db i endTime ioS ioU = (db', None) →
  active_rows db'
  = filter (λ r, Database.is_open r ∧ Database.id r ≠ i) (Database.rows db).
Proof.
  intros Hstop. destruct (StopTimeSlot_Ok _ _ _ _ _ _ Hstop) as (r & _ & ->).
  unfold active_rows. simpl. apply open_after_update_id.
  intros r'. unfold Database.is_open. simpl. done.
Qed.

Lemma CreateTimeSlot_Err db taskName startTime io db' err :
  Database.CreateTimeSlot db taskName startTime io = (db', Err err) → db' = db.
Proof.
  unfold Database.CreateTimeSlot. intros H. destruct io; by simplify_eq.
Qed.

Lemma CreateTimeSlot_Ok db taskName startTime io db' slot :
  Database.CreateTimeSlot db taskName startTime io = (db', Ok slot) →
  slot = TimeSlot.mk (Database.next_id db) taskName startTime None 0
  ∧ db' = Database.mk
            (Database.rows db
               ++ [Database.mkRow (Database.next_id db) taskName
                     (time.wall startTime) None 0])
            (Database.next_id db).
Proof.
  unfold Database.CreateTimeSlot. intros H. destruct io; by simplify_eq.
Qed.

Lemma CreateTimeSlot_active db taskName startTime io db' slot :
  Database.CreateTimeSlot db taskName startTime io = (db', Ok slot) →
  active_rows db'
  = active_rows db
      ++ [Database.mkRow (TimeSlot.ID slot) taskName (time.wall startTime) None 0].
Proof.
  intros Hc. destruct (CreateTimeSlot_Ok _ _ _ _ _ _ Hc) as [-> ->].
  unfold active_rows. simpl. rewrite filter_app. done.
Qed.

End StoreLemmas.

(** ** Primary key *)

Section PrimaryKey.

Implicit Types (l : list Database.Row) (r : Database.Row) (i : Z)
  (db : Database.t).

Lemma foldr_max_bound (seq : Z) (ids : list Z) :
  seq ≤ foldr Z.max seq ids ∧ Forall (λ x, x ≤ foldr Z.max seq ids) ids.
Proof.
  induction ids as [|x ids [IH1 IH2]]; simpl.
  - split; [lia | constructor].
  - split; [lia|]. constructor; [lia|].
    eapply Forall_impl; [exact IH2|]. simpl. intros. lia.
Qed.

(** The id given to a new row is above every id of the table. *)
Lemma next_id_fresh db :
  Database.sequence db < Database.next_id db
  ∧ ∀ r, r ∈ Database.rows db → Database.id r < Database.next_id db.
Proof.
  unfold Database.next_id.
  destruct (foldr_max_bound (Database.sequence db) (Database.id <$> Database.rows db))
    as [H1 H2].
  split; [lia|]. intros r Hr.
  rewrite Forall_fmap, Forall_forall in H2. specialize (H2 r Hr). simpl in H2. lia.
Qed.

Lemma update_id_ids i f l :
  (∀ r, Database.id (f r) = Database.id r) →
  Database.id <$> Database.update_id i f l = Database.id <$> l.
Proof.
  intros Hf. unfold Database.update_id. rewrite <- list_fmap_compose.
  apply list_fmap_ext. intros _ r _. simpl.
  destruct (decide (Database.id r = i)); [apply Hf | done].
Qed.

Lemma update_id_well_keyed i f db :
  (∀ r, Database.id (f r) = Database.id r) →
  well_keyed db →
  well_keyed (Database.mk (Database.update_id i f (Database.rows db))
                (Database.sequence db)).
Proof.
  intros Hf [Hnd Hseq]. split; simpl.
  - by rewrite update_id_ids.
  - apply Forall_forall. intros r' Hr'.
    apply elem_of_update_id in Hr' as (r & Hr & ->).
    rewrite Forall_forall in Hseq. specialize (Hseq r Hr).
    destruct (decide (Database.id r = i)); [by rewrite Hf | done].
Qed.

Lemma CreateTimeSlot_well_keyed db taskName startTime io :
  well_keyed db →
  well_keyed (Database.CreateTimeSlot db taskName startTime io).1.
Proof.
  intros [Hnd Hseq]. unfold Database.CreateTimeSlot.
  destruct io; simpl; [by split|].
  destruct (next_id_fresh db) as [Hlt Hfresh]. split; simpl.
  - rewrite fmap_app. apply NoDup_app. split; [done|]. split.
    + intros x Hx Hin. simpl in Hin. apply list_elem_of_singleton in Hin as ->.
      apply list_elem_of_fmap in Hx as (r & Hr1 & Hr2).
      specialize (Hfresh r Hr2). lia.
    + simpl. apply NoDup_singleton.
  - apply Forall_app. split.
    + apply Forall_forall. intros r Hr. specialize (Hfresh r Hr). lia.
    + constructor; [simpl; lia | constructor].
Qed.

Lemma StopTimeSlot_well_keyed db i endTime ioS ioU :
  well_keyed db →
  well_keyed (Database.StopTimeSlot db i endTime ioS ioU).1.
Proof.
  intros Hwk. unfold Database.StopTimeSlot.
  destruct ioS; [done|].
  destruct (Database.select_id i (Database.rows db)); [|done].
  destruct ioU; [done|]. simpl. by apply update_id_well_keyed.
Qed.

Lemma UpdateTimeSlot_well_keyed db i taskName s e io :
  well_keyed db →
  well_keyed (Database.UpdateTimeSlot db i taskName s e io).1.
Proof.
  intros Hwk. unfold Database.UpdateTimeSlot.
  destruct io; [done|]. simpl. by apply update_id_well_keyed.
Qed.

Lemma DeleteTimeSlot_well_keyed db i io :
  well_keyed db →
  well_keyed (Database.DeleteTimeSlot db i io).1.
Proof.
  intros [Hnd Hseq]. unfold Database.DeleteTimeSlot.
  destruct io; [by split|]. split; simpl.
  - eapply sublist_NoDup; [exact Hnd|]. apply fmap_sublist, sublist_filter.
  - apply Forall_forall. intros r Hr. apply list_elem_of_filter in Hr as [_ Hr].
    rewrite Forall_forall in Hseq. by apply Hseq.
Qed.

(** Under the primary key a row is found by its id, and no other row
    has that id. *)
Lemma select_id_unique db i r :
  well_keyed db →
  r ∈ Database.rows db → Database.id r = i →
  Database.select_id i (Database.rows db) = Some r.
Proof.
  intros [Hnd _] Hr Hid.
  destruct (select_id_found i _ r Hr Hid) as [r' Hsel].
  rewrite Hsel. f_equal.
  destruct (select_id_Some _ _ _ Hsel) as [Hr' Hid'].
  revert Hnd Hr Hr' Hid Hid'. generalize (Database.rows db). intros l.
  induction l as [|x l IH]; intros Hnd Hr Hr' Hid Hid'.
  - by apply not_elem_of_nil in Hr.
  - rewrite fmap_cons in Hnd. apply NoDup_cons in Hnd as [Hx Hnd].
    apply elem_of_cons in Hr as [->|Hr]; apply elem_of_cons in Hr' as [->|Hr'].
    + done.
    + destruct Hx. apply list_elem_of_fmap. exists r'. split; [congruence|done].
    + destruct Hx. apply list_elem_of_fmap. exists r. split; [congruence|done].
    + by apply IH.
Qed.

Lemma Start_well_keyed tm taskName db env :
  well_keyed db → well_keyed (Timer.Start tm taskName db env).1.2.
Proof.
  intros Hwk. unfold Timer.Start.
  set (stopped := match Timer.activeSlot tm with
                  | Some s => _
                  | None => _
                  end).
  assert (well_keyed stopped.1) as Hwk1.
  { unfold stopped. destruct (Timer.activeSlot tm) as [s|]; [|done].
    destruct (TimeSlot.IsActive s); [|done]. by apply StopTimeSlot_well_keyed. }
  destruct stopped as [db1 [err|]]; [done|].
  pose proof (CreateTimeSlot_well_keyed db1 taskName (Timer.create_now env)
                (Timer.create_insert env) Hwk1) as Hwk2.
  destruct (Database.CreateTimeSlot db1 taskName (Timer.create_now env)
              (Timer.create_insert env)) as [db2 [slot|err]]; done.
Qed.

Lemma Stop_well_keyed tm db env :
  well_keyed db → well_keyed (Timer.Stop tm db env).1.2.
Proof.
  intros Hwk. unfold Timer.Stop.
  destruct (Timer.activeSlot tm) as [s|]; [|done].
  destruct (TimeSlot.IsActive s); simpl; [|done].
  pose proof (StopTimeSlot_well_keyed db (TimeSlot.ID s) (Timer.now env)
                (Timer.select env) (Timer.update env) Hwk) as Hwk1.
  destruct (Database.StopTimeSlot db (TimeSlot.ID s) (Timer.now env)
              (Timer.select env) (Timer.update env)) as [db1 [err|]]; done.
Qed.

End PrimaryKey.

(** ** The flags of the timer *)

Section Flags.

Implicit Types (tm : Timer.t) (db : Database.t).

Lemma NewTimer_settled : settled Timer.NewTimer.
Proof. reflexivity. Qed.

Lemma Start_settled tm taskName db env :
  settled tm → settled (Timer.Start tm taskName db env).1.1.
Proof.
  intros Hs. unfold Timer.Start.
  destruct (match Timer.activeSlot tm with
            | Some s => _
            | None => _
            end) as [db1 [err|]]; [done|].
  destruct (Database.CreateTimeSlot db1 taskName (Timer.create_now env)
              (Timer.create_insert env)) as [db2 [slot|err]] eqn:Hc; [|done].
  destruct (CreateTimeSlot_Ok _ _ _ _ _ _ Hc) as [-> _]. by split.
Qed.

Lemma Stop_settled tm db env : settled tm → settled (Timer.Stop tm db env).1.1.
Proof.
  intros Hs. unfold Timer.Stop.
  destruct (Timer.activeSlot tm) as [s|] eqn:E; [|done].
  destruct (TimeSlot.IsActive s); simpl; [|done].
  destruct (Database.StopTimeSlot db (TimeSlot.ID s) (Timer.now env)
              (Timer.select env) (Timer.update env)) as [db1 [err|]]; done.
Qed.

Lemma latest_elem (l : list Database.Row) r :
  Database.latest l = Some r → r ∈ l.
Proof.
  unfold Database.latest.
  assert (∀ (k : list Database.Row) acc,
            foldl (λ acc r,
                     match acc with
                     | None => Some r
                     | Some a =>
                         if Database.start_time a <? Database.start_time r
                         then Some r else Some a
                     end) acc k = Some r →
            r ∈ k ∨ acc = Some r) as Hgen.
  { induction k as [|x k IH]; intros acc H; simpl in H; [by right|].
    apply IH in H as [H|H]; [left; by right|].
    destruct acc as [a|]; [|simplify_eq; left; left].
    destruct (Database.start_time a <? Database.start_time x);
      simplify_eq; [left; left | by right]. }
  intros H. by apply Hgen in H as [H|H].
Qed.

Lemma LoadActiveSlot_settled tm db io :
  settled tm → settled (Timer.LoadActiveSlot tm db io).1.
Proof.
  intros Hs. unfold Timer.LoadActiveSlot, Database.GetActiveTimeSlot.
  destruct io; [done|].
  destruct (Database.latest (filter Database.is_open (Database.rows db)))
    as [r|] eqn:E; simpl; [|done].
  split; [done|]. apply latest_elem in E.
  apply list_elem_of_filter in E as [Hopen _].
  unfold Database.is_open in Hopen. unfold Database.scan. simpl.
  by rewrite Hopen.
Qed.

(** For a settled timer, Idle is what IsRunning reports as false. *)
Lemma Idle_iff_not_running tm :
  settled tm → (Idle tm ↔ Timer.IsRunning tm = false).
Proof.
  unfold settled, Idle, Timer.IsRunning, TimeSlot.IsActive.
  destruct (Timer.activeSlot tm) as [s|]; [|done].
  intros [-> ->]. done.
Qed.

End Flags.

(** ** The timer and the store stay in step *)

Section Invariant.

Implicit Types (a : App.t) (tm : Timer.t) (db : Database.t) (s : TimeSlot.t).

Lemma coherent_Idle tm db : coherent tm db → Idle tm → active_rows db = [].
Proof.
  intros Hco Hidle. destruct (active_rows db) as [|r l] eqn:E; [done|].
  destruct (Hco r) as (s & Hs & Hact & _); [rewrite E; left|].
  unfold Idle in Hidle. rewrite Hs in Hidle. congruence.
Qed.

(** Closing the timer's slot closes every open row of a coherent store. *)
Lemma implicit_stop_clears tm db s endTime ioS ioU db1 :
  coherent tm db → Timer.activeSlot tm = Some s →
  Database.StopTimeSlot db (TimeSlot.ID s) endTime ioS ioU = (db1, None) →
  active_rows db1 = [].
Proof.
  intros Hco Hs Hstop. rewrite (StopTimeSlot_closes _ _ _ _ _ _ Hstop).
  apply filter_nil_iff. intros r Hr [Hopen Hne].
  destruct (Hco r) as (s' & Hs' & _ & Hid).
  - unfold active_rows. apply list_elem_of_filter. done.
  - rewrite Hs in Hs'. by simplify_eq.
Qed.

Lemma Inv_no_active tm db : active_rows db = [] → Inv (App.mk db tm).
Proof.
  intros E. split; simpl.
  - unfold at_most_one_active. rewrite E. simpl. lia.
  - intros r Hr. rewrite E in Hr. by apply not_elem_of_nil in Hr.
Qed.

(** Creating a slot in a store without open rows and caching it. *)
Lemma Inv_created db taskName startTime io db2 slot now ch :
  active_rows db = [] →
  Database.CreateTimeSlot db taskName startTime io = (db2, Ok slot) →
  Inv (App.mk db2 (Timer.mk (Some slot) true now ch)).
Proof.
  intros E Hc. pose proof (CreateTimeSlot_active _ _ _ _ _ _ Hc) as Hact.
  rewrite E in Hact. simpl in Hact.
  destruct (CreateTimeSlot_Ok _ _ _ _ _ _ Hc) as [Hslot _].
  split; simpl.
  - unfold at_most_one_active. rewrite Hact. simpl. lia.
  - intros r Hr. rewrite Hact in Hr. apply list_elem_of_singleton in Hr as ->.
    exists slot. simpl. split; [done|]. split; [by rewrite Hslot | done].
Qed.

Lemma Start_Inv a taskName env : Inv a → Inv (step a (CallStart taskName env)).
Proof.
  destruct a as [db tm]. intros [Hone Hco]. simpl in *.
  unfold Timer.Start.
  assert (∀ db1, active_rows db1 = [] →
            Inv (let '(tm', db', _) :=
                   match Database.CreateTimeSlot db1 taskName (Timer.create_now env)
                           (Timer.create_insert env) with
                   | (db2, Err err) => (tm, db2, Err err)
                   | (db2, Ok slot) =>
                       (Timer.mk (Some slot) true (Timer.create_now env)
                          (Timer.notify true (Timer.notifyChannel tm)),
                        db2, Ok (Some slot))
                   end in App.mk db' tm')) as Hcreate.
  { intros db1 E.
    destruct (Database.CreateTimeSlot db1 taskName (Timer.create_now env)
                (Timer.create_insert env)) as [db2 [slot|err]] eqn:Hc.
    - by eapply Inv_created.
    - apply CreateTimeSlot_Err in Hc as ->. by apply Inv_no_active. }
  destruct (Timer.activeSlot tm) as [s|] eqn:Hs.
  - destruct (TimeSlot.IsActive s) eqn:Hact.
    + destruct (Database.StopTimeSlot db (TimeSlot.ID s) (Timer.stop_now env)
                  (Timer.stop_select env) (Timer.stop_update env))
        as [db1 [err|]] eqn:Hstop.
      * apply StopTimeSlot_Err in Hstop as ->. split; simpl; done.
      * apply Hcreate. by eapply implicit_stop_clears.
    + apply Hcreate. apply (coherent_Idle tm); [done|].
      unfold Idle. by rewrite Hs.
  - apply Hcreate. apply (coherent_Idle tm); [done|].
    unfold Idle. by rewrite Hs.
Qed.

Lemma Stop_Inv a env : Inv a → Inv (step a (CallStop env)).
Proof.
  destruct a as [db tm]. intros [Hone Hco]. simpl in *.
  unfold Timer.Stop.
  destruct (Timer.activeSlot tm) as [s|] eqn:Hs; [|by split].
  destruct (TimeSlot.IsActive s) eqn:Hact; simpl; [|by split].
  destruct (Database.StopTimeSlot db (TimeSlot.ID s) (Timer.now env)
              (Timer.select env) (Timer.update env)) as [db1 [err|]] eqn:Hstop.
  - apply StopTimeSlot_Err in Hstop as ->. by split.
  - apply Inv_no_active. by eapply implicit_stop_clears.
Qed.

Lemma step_Inv a c : Inv a → Inv (step a c).
Proof. destruct c; [apply Start_Inv | apply Stop_Inv]. Qed.

Lemma run_Inv a calls : Inv a → Inv (run a calls).
Proof.
  revert a. induction calls as [|c calls IH]; intros a HI; [done|].
  simpl. apply IH. by apply step_Inv.
Qed.

(** The store between the implicit stop and the INSERT. *)
Lemma store_inside_ok a c : Inv a → Forall at_most_one_active (store_inside a c).
Proof.
  destruct a as [db tm]. intros [Hone Hco]. destruct c as [taskName env|env]; simpl.
  2: by constructor.
  destruct (Timer.activeSlot tm) as [s|] eqn:Hs; [|by constructor].
  destruct (TimeSlot.IsActive s); [|by constructor].
  constructor; [|by constructor].
  destruct (Database.StopTimeSlot db (TimeSlot.ID s) (Timer.stop_now env)
              (Timer.stop_select env) (Timer.stop_update env))
    as [db1 [err|]] eqn:Hstop; simpl.
  - by apply StopTimeSlot_Err in Hstop as ->.
  - unfold at_most_one_active.
    rewrite (implicit_stop_clears _ _ _ _ _ _ _ Hco Hs Hstop). simpl. lia.
Qed.

Lemma trace_Inv a calls : Inv a → Forall at_most_one_active (trace a calls).
Proof.
  revert a. induction calls as [|c calls IH]; intros a HI; simpl.
  - constructor; [apply HI | constructor].
  - constructor; [apply HI|]. apply Forall_app. split.
    + by apply store_inside_ok.
    + apply IH. by apply step_Inv.
Qed.

(** LoadActiveSlot on a store with at most one open row makes the timer
    coherent with it. *)
Lemma LoadActiveSlot_coherent tm db io tm' :
  at_most_one_active db →
  Timer.LoadActiveSlot tm db io = (tm', None) →
  coherent tm' db.
Proof.
  unfold at_most_one_active, Timer.LoadActiveSlot, Database.GetActiveTimeSlot.
  intros Hone Hload. destruct io; [by simplify_eq|].
  fold (active_rows db) in Hload.
  destruct (active_rows db) as [|r [|r' l]] eqn:E; simpl in *; [| |lia].
  - simplify_eq. intros r Hr. rewrite E in Hr. by apply not_elem_of_nil in Hr.
  - simplify_eq. intros r0 Hr. rewrite E in Hr.
    apply list_elem_of_singleton in Hr as ->.
    exists (Database.scan r). simpl. split; [done|]. split; [|done].
    assert (r ∈ active_rows db) as Hin by (rewrite E; left).
    apply list_elem_of_filter in Hin as [Hopen _].
    unfold TimeSlot.IsActive, Database.scan. simpl.
    unfold Database.is_open in Hopen. by rewrite Hopen.
Qed.

Lemma NewApp_Inv disk ioOpen ioLoad a :
  at_most_one_active disk → App.NewApp disk ioOpen ioLoad = Ok a → Inv a.
Proof.
  unfold App.NewApp, NewDatabase. intros Hone Hnew.
  destruct ioOpen; [by simplify_eq|].
  destruct (Timer.LoadActiveSlot Timer.NewTimer disk ioLoad) as [tm [err|]] eqn:Hload;
    [by simplify_eq|].
  simplify_eq. split; simpl; [done|]. by eapply LoadActiveSlot_coherent.
Qed.

End Invariant.

(** ** At most one active slot *)

(** C1, as the code has it. For every sequence of Timer.Start and
    Timer.Stop calls executed from an initial state in which at most one
    slot has an absent end_time and every such slot is the one the timer
    holds as its active slot, at most one slot is active at every point: in
    every content the store goes through, the one between the implicit stop
    of a Start and its INSERT included, and in the final one.  Start
    force-closes the slot the timer holds, via StopTimeSlot, before it
    creates the new slot. *)
Theorem at_most_one_active_at_any_point a calls :
  at_most_one_active (App.database a) →
  coherent (App.timer a) (App.database a) →
  Forall at_most_one_active (trace a calls)
  ∧ at_most_one_active (App.database (run a calls)).
Proof.
  intros Hone Hco. assert (Inv a) as HI by (by split).
  split; [by apply trace_Inv | by apply run_Inv].
Qed.

Lemma at_most_one_active_at_any_point_witness :
  at_most_one_active (App.database Sample.loaded)
  ∧ coherent (App.timer Sample.loaded) (App.database Sample.loaded)
  ∧ Forall at_most_one_active (trace Sample.loaded Sample.calls)
  ∧ at_most_one_active (App.database (run Sample.loaded Sample.calls)).
Proof.
  assert (at_most_one_active (App.database Sample.loaded)) as H1
    by (vm_compute; lia).
  assert (coherent (App.timer Sample.loaded) (App.database Sample.loaded)) as H2.
  { intros r Hr. vm_compute in Hr.
    apply list_elem_of_singleton in Hr as ->.
    eexists. split; [reflexivity|]. split; reflexivity. }
  split; [exact H1|]. split; [exact H2|].
  exact (at_most_one_active_at_any_point Sample.loaded Sample.calls H1 H2).
Defined.

(** The state NewApp builds is such an initial state whenever the store
    it opens has at most one active slot. *)
Corollary at_most_one_active_from_start_up disk ioOpen ioLoad a calls :
  at_most_one_active disk →
  App.NewApp disk ioOpen ioLoad = Ok a →
  Forall at_most_one_active (trace a calls)
  ∧ at_most_one_active (App.database (run a calls)).
Proof.
  intros Hone Hnew. pose proof (NewApp_Inv _ _ _ _ Hone Hnew) as HI.
  split; [by apply trace_Inv | by apply run_Inv].
Qed.

(** C1 as stated fails. The application starts on a store with one closed
    slot, so the timer is Idle; the user reopens that slot in the edit
    dialog (UpdateTimeSlot with an empty end time). Exactly one slot has an
    absent end_time, and it is not the timer's. A Start then creates a
    second active slot: the timer closes the slot it holds, not the open
    rows of the store. *)
Lemma Start_with_foreign_open_slot_counterexample :
  App.NewApp Sample.one_closed None None = Ok Sample.idle
  ∧ Sample.reopened
    = App.mk (Database.mk
                [Database.mkRow 1 "email" (Sample.T0 - 60 * time.Second) None 0] 1)
        Timer.NewTimer
  ∧ at_most_one_active (App.database Sample.reopened)
  ∧ active_rows
      (App.database
         (run Sample.reopened
            [CallStart "review"
               (Sample.no_fault_start (Sample.at_ 100) (Sample.at_ 101))]))
    = [Database.mkRow 1 "email" (Sample.T0 - 60 * time.Second) None 0;
       Database.mkRow 2 "review" (Sample.T0 + 101 * time.Second) None 0]
  ∧ ¬ at_most_one_active
        (App.database
           (run Sample.reopened
              [CallStart "review"
                 (Sample.no_fault_start (Sample.at_ 100) (Sample.at_ 101))])).
Proof.
  split; [reflexivity|]. split; [reflexivity|].
  split; [vm_compute; lia|]. split; [reflexivity|].
  unfold at_most_one_active. vm_compute. lia.
Qed.

(** ** Failures and no-ops of the timer *)

(** C5. If the implicit StopTimeSlot of a Start fails while a slot is
    running, Start returns that error; the store is as before (no slot was
    created) and the timer is as before (the prior slot is still its active
    slot). *)
Theorem Start_aborts_when_implicit_stop_fails tm db s taskName env db1 err :
  Timer.activeSlot tm = Some s →
  TimeSlot.IsActive s = true →
  Database.StopTimeSlot db (TimeSlot.ID s) (Timer.stop_now env)
    (Timer.stop_select env) (Timer.stop_update env) = (db1, Some err) →
  Timer.Start tm taskName db env = (tm, db, Err err)
  ∧ Timer.GetActiveSlot tm = Some s.
Proof.
  intros Hs Hact Hstop. split; [|exact Hs].
  unfold Timer.Start. rewrite Hs, Hact, Hstop.
  by rewrite (StopTimeSlot_Err _ _ _ _ _ _ _ Hstop).
Qed.

Lemma Start_aborts_when_implicit_stop_fails_witness :
  Timer.Start (App.timer Sample.loaded) "review" (App.database Sample.loaded)
    Sample.failing_stop
  = (App.timer Sample.loaded, App.database Sample.loaded,
     Err (Errorf "failed to get start time" (ErrDriver "database is locked")))
  ∧ Timer.GetActiveSlot (App.timer Sample.loaded)
    = Some (Database.scan (Database.mkRow 2 "writing" Sample.T0 None 0)).
Proof.
  apply (Start_aborts_when_implicit_stop_fails (App.timer Sample.loaded)
           (App.database Sample.loaded)
           (Database.scan (Database.mkRow 2 "writing" Sample.T0 None 0))
           "review" Sample.failing_stop (App.database Sample.loaded));
    reflexivity.
Defined.

(** C9. Stop on an Idle timer returns (nil, nil) and changes neither the
    timer nor the store; so does App.StopTimer. *)
Theorem Stop_when_Idle a env :
  Idle (App.timer a) →
  Timer.Stop (App.timer a) (App.database a) env
  = (App.timer a, App.database a, Ok None)
  ∧ App.StopTimer a env = (a, Ok None).
Proof.
  destruct a as [db tm]. simpl. unfold Idle, App.StopTimer, Timer.Stop. simpl.
  destruct (Timer.activeSlot tm) as [s|]; [|done].
  intros ->. done.
Qed.

Lemma Stop_when_Idle_witness :
  Idle (App.timer Sample.idle)
  ∧ Timer.Stop (App.timer Sample.idle) (App.database Sample.idle)
      (Sample.no_fault_stop (Sample.at_ 7))
    = (App.timer Sample.idle, App.database Sample.idle, Ok None)
  ∧ App.StopTimer Sample.idle (Sample.no_fault_stop (Sample.at_ 7))
    = (Sample.idle, Ok None).
Proof.
  assert (Idle (App.timer Sample.idle)) as H by (vm_compute; exact I).
  split; [exact H|].
  exact (Stop_when_Idle Sample.idle (Sample.no_fault_stop (Sample.at_ 7)) H).
Defined.

(** C10. App.StartTimer with the empty task name returns (nil, nil): no
    slot is created, no error is reported, and the application (store and
    timer) is unchanged. *)
Theorem StartTimer_empty_name a env :
  App.StartTimer a "" env = (a, Ok None).
Proof.
  unfold App.StartTimer.
  destruct (decide ("" = "")) as [_|Hne]; [reflexivity|].
  by destruct Hne.
Qed.

(** ** Durations *)

Section Durations.

Lemma saturate_id d :
  time.minDuration ≤ d → d ≤ time.maxDuration → time.saturate d = d.
Proof.
  unfold time.saturate. intros Hlo Hhi.
  destruct (Z.ltb_spec d time.minDuration); [lia|].
  destruct (Z.ltb_spec time.maxDuration d); [lia|]. done.
Qed.

(** Against a time read from the store, [Sub] is on the wall clock. *)
Lemma Sub_stored t w :
  time.Sub t (time.mkTime w None) = time.saturate (time.wall t - w).
Proof. unfold time.Sub. simpl. by destruct (time.mono t). Qed.


Lemma Seconds_whole k : time.Seconds (k * time.Second) = k.
Proof. unfold time.Seconds. apply Z.quot_mul. done. Qed.

(** A whole number of seconds between a clock reading and a stored
    instant. *)
Lemma Sub_stored_seconds t w k :
  time.wall t = w + k * time.Second →
  time.minDuration ≤ k * time.Second ≤ time.maxDuration →
  time.Sub t (time.mkTime w None) = k * time.Second
  ∧ time.Seconds (time.Sub t (time.mkTime w None)) = k.
Proof.
  intros Hw [Hlo Hhi]. rewrite Sub_stored, Hw.
  replace (w + k * time.Second - w) with (k * time.Second) by lia.
  rewrite saturate_id by done. split; [done | apply Seconds_whole].
Qed.

End Durations.

(** ** Recovery after a restart *)

(** C6. When the process restarts while a slot with persisted start_time
    T0 is the active one, LoadActiveSlot succeeds and leaves the timer
    running on that slot with start instant T0 (so does NewApp), and
    GetElapsedTime read at wall-clock time T0 + 120 s is 120 seconds. *)
Theorem elapsed_after_restart tm disk r T0 :
  active_rows disk = [r] →
  Database.start_time r = T0 →
  ∃ tm',
    Timer.LoadActiveSlot tm disk None = (tm', None)
    ∧ (tm = Timer.NewTimer → App.NewApp disk None None = Ok (App.mk disk tm'))
    ∧ Timer.IsRunning tm' = true
    ∧ Timer.GetActiveSlot tm' = Some (Database.scan r)
    ∧ Timer.startTime tm' = time.mkTime T0 None
    ∧ ∀ clock, time.wall clock = T0 + 120 * time.Second →
        Timer.GetElapsedTime tm' clock = 120 * time.Second
        ∧ App.GetElapsedTime (App.mk disk tm') clock = 120.
Proof.
  intros Hact HT0.
  assert (Timer.LoadActiveSlot tm disk None
          = (Timer.mk (Some (Database.scan r)) true (time.mkTime T0 None)
               (Timer.notifyChannel tm), None)) as Hload.
  { unfold Timer.LoadActiveSlot, Database.GetActiveTimeSlot.
    fold (active_rows disk). rewrite Hact. simpl. by rewrite HT0. }
  eexists. split; [exact Hload|].
  split.
  { intros ->. unfold App.NewApp, NewDatabase. by rewrite Hload. }
  split; [done|]. split; [done|]. split; [done|].
  intros clock Hclock.
  assert (Timer.GetElapsedTime
            (Timer.mk (Some (Database.scan r)) true (time.mkTime T0 None)
               (Timer.notifyChannel tm)) clock = 120 * time.Second) as Hel.
  { unfold Timer.GetElapsedTime, time.Since. simpl.
    apply (Sub_stored_seconds clock T0 120); [done|].
    vm_compute. split; discriminate. }
  split; [exact Hel|].
  unfold App.GetElapsedTime. simpl. rewrite Hel. apply Seconds_whole.
Qed.

Lemma elapsed_after_restart_witness :
  active_rows Sample.one_open = [Database.mkRow 2 "writing" Sample.T0 None 0]
  ∧ App.NewApp Sample.one_open None None = Ok Sample.loaded
  ∧ App.GetElapsedTime Sample.loaded (Sample.at_ 120) = 120.
Proof.
  destruct (elapsed_after_restart Timer.NewTimer Sample.one_open
              (Database.mkRow 2 "writing" Sample.T0 None 0) Sample.T0
              eq_refl eq_refl)
    as (tm' & Hload & Hnew & _ & _ & _ & Hel).
  injection Hload as <-.
  split; [reflexivity|]. split; [exact (Hnew eq_refl)|].
  exact (proj2 (Hel (Sample.at_ 120) eq_refl)).
Defined.

(** ** What Stop returns *)

(** Stop hands back the slot the timer cached, as it was cached. *)
Lemma Stop_returns_cached tm db env tm' db' slot :
  Timer.Stop tm db env = (tm', db', Ok (Some slot)) →
  Timer.activeSlot tm = Some slot ∧ TimeSlot.EndTime slot = None.
Proof.
  unfold Timer.Stop. intros H.
  destruct (Timer.activeSlot tm) as [s|]; [|by simplify_eq].
  unfold TimeSlot.IsActive in H.
  destruct (TimeSlot.EndTime s) eqn:E; simpl in H; [by simplify_eq|].
  destruct (Database.StopTimeSlot db (TimeSlot.ID s) (Timer.now env)
              (Timer.select env) (Timer.update env)) as [db1 [err|]];
    by simplify_eq.
Qed.

(** C4, as the code has it. Start "writing" at T0 on an empty store, then
    Stop at T0 + 3600 s: the row of the store is closed with end_time
    T0 + 3600 s and duration_seconds 3600, but the slot Stop returns is the
    cached one, with no end_time and duration_seconds 0. *)
Theorem Stop_after_an_hour (T0 m0 m1 : Z) (unused : time.Time) :
  let start_clock := time.mkTime T0 (Some m0) in
  let stop_clock := time.mkTime (T0 + 3600 * time.Second) (Some m1) in
  let a0 := App.mk Sample.empty Timer.NewTimer in
  let a1 := (App.StartTimer a0 "writing"
               (Sample.no_fault_start unused start_clock)).1 in
  let '(a2, returned) := App.StopTimer a1 (Sample.no_fault_stop stop_clock) in
  returned = Ok (Some (TimeSlot.mk 1 "writing" start_clock None 0))
  ∧ Database.rows (App.database a2)
    = [Database.mkRow 1 "writing" T0 (Some (T0 + 3600 * time.Second)) 3600]
  ∧ Idle (App.timer a2).
Proof.
  intros start_clock stop_clock a0 a1.
  assert (a1 = App.mk (Database.mk [Database.mkRow 1 "writing" T0 None 0] 1)
                 (Timer.mk (Some (TimeSlot.mk 1 "writing" start_clock None 0))
                    true start_clock (Some true))) as -> by reflexivity.
  unfold App.StopTimer, Timer.Stop, Database.StopTimeSlot. simpl.
  destruct (Sub_stored_seconds stop_clock T0 3600) as [_ ->];
    [done | by vm_compute |].
  done.
Qed.

(** ** Reading a row back *)

Section ReadBack.

Implicit Types (l : list Database.Row) (r : Database.Row) (i : Z).

Lemma select_id_update_id i f l :
  (∀ r, Database.id (f r) = Database.id r) →
  Database.select_id i (Database.update_id i f l) = f <$> Database.select_id i l.
Proof.
  intros Hf. unfold Database.select_id, Database.update_id.
  induction l as [|r l IH]; [done|]. simpl.
  destruct (decide (Database.id r = i)) as [Hi|Hi].
  - rewrite !bool_decide_eq_true_2; [done | done | by rewrite Hf].
  - rewrite !bool_decide_eq_false_2 by done. apply IH.
Qed.

Lemma select_id_app_l i l l' r :
  Database.select_id i l = Some r → Database.select_id i (l ++ l') = Some r.
Proof.
  unfold Database.select_id. induction l as [|x l IH]; [done|]. simpl.
  destruct (bool_decide (Database.id x = i)); [done | apply IH].
Qed.



End ReadBack.

(** ** Starting while a slot is running *)




(** ** Manual edits *)



(** The only failure of UpdateTimeSlot is the failure of its statement,
    and then the store is unchanged. *)
Lemma UpdateTimeSlot_Err db i taskName s e io db' err :
  Database.UpdateTimeSlot db i taskName s e io = (db', Some err) →
  db' = db
  ∧ ∃ detail, io = Some detail
              ∧ err = Errorf "failed to update time slot" (ErrDriver detail).
Proof.
  unfold Database.UpdateTimeSlot. intros H. destruct io as [detail|].
  - simplify_eq. split; [done|]. by exists detail.
  - by simplify_eq.
Qed.







(** ** Statistics of a day *)

Section Statistics.

Variable midnight : time.Time → Z.

Implicit Types (l : list Database.Row) (r : Database.Row)
  (kvs : list (string * Z)).









#[local] Instance total_Permutation : Proper ((≡ₚ) ==> (=)) Database.total.
Proof.
  intros l1 l2 Hp.
  induction Hp as [|x l1 l2 _ IH|x y l|l1 l2 l3 _ IH1 _ IH2].
  - done.
  - unfold Database.total in *. rewrite !fmap_cons. simpl. by rewrite IH.
  - unfold Database.total. rewrite !fmap_cons. simpl. lia.
  - by rewrite IH1.
Qed.



End Statistics.

Example statistics_of_a_day :
  ∃ stats,
    Database.GetTaskStatistics Sample.utc_midnight Sample.two_days
      (Sample.at_ 0) None = Ok stats
    ∧ stats !! "email" = Some 3900
    ∧ stats !! "writing" = None
    ∧ stats !! "review" = None
    ∧ TimeSlot.ID <$>
        match Database.GetTimeSlotsByDate Sample.utc_midnight Sample.two_days
                (Sample.at_ 0) None with
        | Ok slots => slots
        | Err _ => []
        end = [2; 3; 4].
Proof.
  eexists. split; [reflexivity|]. repeat split; vm_compute; reflexivity.
Qed.


(** ** More on the store *)

Section StoreMore.

Implicit Types (l : list Database.Row) (r : Database.Row) (i : Z)
  (db : Database.t).

Lemma select_id_absent i l :
  (∀ r, r ∈ l → Database.id r ≠ i) → Database.select_id i l = None.
Proof.
  intros Hall. destruct (Database.select_id i l) as [r|] eqn:E; [|done].
  apply select_id_Some in E as [Hr Hid]. by destruct (Hall r Hr).
Qed.

Lemma update_id_absent i f l :
  Database.select_id i l = None → Database.update_id i f l = l.
Proof.
  intros Hnone. unfold Database.update_id.
  induction l as [|r l IH]; [done|].
  rewrite fmap_cons. unfold Database.select_id in Hnone. simpl in Hnone.
  destruct (decide (Database.id r = i)) as [Hi|Hi].
  - by rewrite bool_decide_eq_true_2 in Hnone.
  - rewrite bool_decide_eq_false_2 in Hnone by done. by rewrite IH.
Qed.

Lemma delete_absent i l :
  Database.select_id i l = None → filter (λ r, Database.id r ≠ i) l = l.
Proof.
  intros Hnone. induction l as [|r l IH]; [done|].
  unfold Database.select_id in Hnone. simpl in Hnone.
  destruct (decide (Database.id r = i)) as [Hi|Hi].
  - by rewrite bool_decide_eq_true_2 in Hnone.
  - rewrite bool_decide_eq_false_2 in Hnone by done.
    rewrite filter_cons_True by done. by rewrite IH.
Qed.



End StoreMore.

(** X1. DeleteTimeSlot, when its statement executes, reports no error and
    removes the slot of the given id: no row of that id is left, the rows of
    the other ids stay as they were and in their order, and the
    AUTOINCREMENT counter is kept. Deleting an id that is not in the table
    reports no error either and changes nothing. *)
Theorem DeleteTimeSlot_removes_the_id db i :
  ∃ db',
    Database.DeleteTimeSlot db i None = (db', None)
    ∧ Database.select_id i (Database.rows db') = None
    ∧ (∀ r, Database.id r ≠ i →
            (r ∈ Database.rows db' ↔ r ∈ Database.rows db))
    ∧ Database.rows db' `sublist_of` Database.rows db
    ∧ Database.sequence db' = Database.sequence db
    ∧ (Database.select_id i (Database.rows db) = None → db' = db).
Proof.
  eexists. split; [reflexivity|]. simpl.
  split.
  { apply select_id_absent. intros r Hr. by apply list_elem_of_filter in Hr as [? _]. }
  split.
  { intros r Hne. rewrite list_elem_of_filter. tauto. }
  split; [apply sublist_filter|]. split; [done|].
  intros Hnone. rewrite delete_absent by done. by destruct db.
Qed.

(** X2. UpdateTimeSlot on an id that is not in the table reports no
    error and changes nothing: a missing id is not detected. *)
Theorem UpdateTimeSlot_missing_id db i taskName s e :
  Database.select_id i (Database.rows db) = None →
  Database.UpdateTimeSlot db i taskName s e None = (db, None).
Proof.
  intros Hnone. unfold Database.UpdateTimeSlot.
  rewrite update_id_absent by done. by destruct db.
Qed.

Lemma UpdateTimeSlot_missing_id_witness :
  Database.UpdateTimeSlot Sample.one_open 7 "mail" (Sample.at_ 10)
    (Some (Sample.at_ 20)) None
  = (Sample.one_open, None).
Proof.
  exact (UpdateTimeSlot_missing_id Sample.one_open 7 "mail" (Sample.at_ 10)
           (Some (Sample.at_ 20)) eq_refl).
Defined.



(** ** What every run of the API keeps *)

Section ApiRuns.

Variable parseRFC3339 : string → result Z.

Implicit Types (a : App.t) (db : Database.t) (P : Database.t → Prop).

(** A property of the store kept by the four store operations is kept by
    every call of the API. *)
Lemma api_step_store P a c :
  (∀ db taskName t io, P db → P (Database.CreateTimeSlot db taskName t io).1) →
  (∀ db i t ioS ioU, P db → P (Database.StopTimeSlot db i t ioS ioU).1) →
  (∀ db i taskName st et io,
     P db →
     P (Database.UpdateTimeSlot db i taskName (time.mkTime st None)
          ((λ w, time.mkTime w None) <$> et) io).1) →
  (∀ db i io, P db → P (Database.DeleteTimeSlot db i io).1) →
  P (App.database a) → P (App.database (api_step parseRFC3339 a c)).
Proof.
  intros Hcreate Hstop Hupdate Hdelete HP. destruct a as [db tm].
  destruct c as [taskName env|env|i taskName startStr endStr io|i io]; simpl in *.
  - unfold App.StartTimer. destruct (decide (taskName = "")); [done|]. simpl.
    unfold Timer.Start.
    set (stopped := match Timer.activeSlot tm with
                    | Some s => _
                    | None => _
                    end).
    assert (P stopped.1) as HP1.
    { unfold stopped. destruct (Timer.activeSlot tm) as [s|]; [|done].
      destruct (TimeSlot.IsActive s); [|done]. by apply Hstop. }
    destruct stopped as [db1 [err|]]; [done|].
    pose proof (Hcreate db1 taskName (Timer.create_now env)
                  (Timer.create_insert env) HP1) as HP2.
    destruct (Database.CreateTimeSlot db1 taskName (Timer.create_now env)
                (Timer.create_insert env)) as [db2 [slot|err]]; done.
  - unfold App.StopTimer, Timer.Stop. simpl.
    destruct (Timer.activeSlot tm) as [s|]; [|done].
    destruct (TimeSlot.IsActive s); simpl; [|done].
    pose proof (Hstop db (TimeSlot.ID s) (Timer.now env) (Timer.select env)
                  (Timer.update env) HP) as HP1.
    destruct (Database.StopTimeSlot db (TimeSlot.ID s) (Timer.now env)
                (Timer.select env) (Timer.update env)) as [db1 [err|]]; done.
  - unfold App.UpdateTimeSlot. simpl.
    destruct (parseRFC3339 startStr) as [st|err]; [|done].
    destruct (decide (endStr = "")).
    + pose proof (Hupdate db i taskName st None io HP) as HP1. simpl in HP1.
      destruct (Database.UpdateTimeSlot db i taskName (time.mkTime st None) None io);
        done.
    + destruct (parseRFC3339 endStr) as [et|err]; [|done].
      pose proof (Hupdate db i taskName st (Some et) io HP) as HP1. simpl in HP1.
      destruct (Database.UpdateTimeSlot db i taskName (time.mkTime st None)
                  (Some (time.mkTime et None)) io); done.
  - unfold App.DeleteTimeSlot. simpl.
    pose proof (Hdelete db i io HP) as HP1.
    destruct (Database.DeleteTimeSlot db i io); done.
Qed.

Lemma api_run_store P a calls :
  (∀ db taskName t io, P db → P (Database.CreateTimeSlot db taskName t io).1) →
  (∀ db i t ioS ioU, P db → P (Database.StopTimeSlot db i t ioS ioU).1) →
  (∀ db i taskName st et io,
     P db →
     P (Database.UpdateTimeSlot db i taskName (time.mkTime st None)
          ((λ w, time.mkTime w None) <$> et) io).1) →
  (∀ db i io, P db → P (Database.DeleteTimeSlot db i io).1) →
  P (App.database a) → P (App.database (api_run parseRFC3339 a calls)).
Proof.
  intros Hcreate Hstop Hupdate Hdelete. revert a.
  induction calls as [|c calls IH]; intros a HP; [done|].
  simpl. apply IH. by apply api_step_store.
Qed.

(** The counter of assigned ids never goes down. *)
Lemma keyed_above (low : Z) a calls :
  well_keyed (App.database a) ∧ low ≤ Database.sequence (App.database a) →
  well_keyed (App.database (api_run parseRFC3339 a calls))
  ∧ low ≤ Database.sequence (App.database (api_run parseRFC3339 a calls)).
Proof.
  apply (api_run_store (λ db, well_keyed db ∧ low ≤ Database.sequence db)).
  - intros db taskName t io [Hwk Hlow]. split; [by apply CreateTimeSlot_well_keyed|].
    unfold Database.CreateTimeSlot. destruct io; simpl; [done|].
    destruct (next_id_fresh db). lia.
  - intros db i t ioS ioU [Hwk Hlow]. split; [by apply StopTimeSlot_well_keyed|].
    unfold Database.StopTimeSlot. destruct ioS; [done|].
    destruct (Database.select_id i (Database.rows db)); [|done].
    destruct ioU; done.
  - intros db i taskName st et io [Hwk Hlow].
    split; [by apply UpdateTimeSlot_well_keyed|].
    unfold Database.UpdateTimeSlot. destruct io; done.
  - intros db i io [Hwk Hlow]. split; [by apply DeleteTimeSlot_well_keyed|].
    unfold Database.DeleteTimeSlot. destruct io; done.
Qed.

Lemma row_consistent_closed r' s e :
  row_consistent
    (Database.mkRow (Database.id r') (Database.task_name r') s (Some e)
       (time.Seconds (time.Sub (time.mkTime e None) (time.mkTime s None)))).
Proof. reflexivity. Qed.


End ApiRuns.

(** X4. Ids are never reused. Over a store that respects its primary key,
    after any sequence of API calls (StartTimer, StopTimer, UpdateTimeSlot,
    DeleteTimeSlot, with any failures) the primary key still holds, and a
    slot created afterwards gets an id greater than the id of every slot
    that was in the store before the calls, deleted in between or not. *)
Theorem ids_are_never_reused (parseRFC3339 : string → result Z) a calls :
  well_keyed (App.database a) →
  well_keyed (App.database (api_run parseRFC3339 a calls))
  ∧ ∀ r taskName startTime db' slot,
      r ∈ Database.rows (App.database a) →
      Database.CreateTimeSlot (App.database (api_run parseRFC3339 a calls))
        taskName startTime None = (db', Ok slot) →
      Database.id r < TimeSlot.ID slot.
Proof.
  intros Hwk.
  destruct (keyed_above parseRFC3339 (Database.sequence (App.database a)) a calls)
    as [Hwk' Hseq]; [split; [done | lia]|].
  split; [done|]. intros r taskName startTime db' slot Hr Hc.
  destruct (CreateTimeSlot_Ok _ _ _ _ _ _ Hc) as [-> _]. simpl.
  destruct Hwk as [_ Hle]. rewrite Forall_forall in Hle. specialize (Hle r Hr).
  destruct (next_id_fresh (App.database (api_run parseRFC3339 a calls))). lia.
Qed.

Lemma ids_are_never_reused_witness :
  well_keyed (App.database Sample.loaded)
  ∧ ∃ db' slot,
      Database.CreateTimeSlot
        (App.database
           (api_run Sample.parseRFC3339 Sample.loaded
              [ApiDeleteTimeSlot 2 None; ApiDeleteTimeSlot 1 None]))
        "review" (Sample.at_ 10) None = (db', Ok slot)
      ∧ 2 < TimeSlot.ID slot.
Proof.
  assert (well_keyed (App.database Sample.loaded)) as Hwk.
  { split; simpl.
    - apply (bool_decide_unpack _). vm_compute. exact I.
    - repeat constructor; vm_compute; discriminate. }
  split; [exact Hwk|]. eexists _, _. split; [reflexivity|].
  exact (proj2 (ids_are_never_reused Sample.parseRFC3339 Sample.loaded
                  [ApiDeleteTimeSlot 2 None; ApiDeleteTimeSlot 1 None] Hwk)
           (Database.mkRow 2 "writing" Sample.T0 None 0) "review" (Sample.at_ 10)
           _ _ ltac:(right; left) eq_refl).
Defined.



(** ** The queries *)

Section Queries.

Implicit Types (l : list Database.Row) (r : Database.Row).




End Queries.



(** X8. Creating a slot and looking it up. Over a store that respects its
    primary key, CreateTimeSlot (when the INSERT executes) returns an
    active slot with a fresh id, the given name and start time and duration
    0; the store then holds the corresponding open row under that id, every
    earlier row is still found under its own id, and if no slot was open
    before, GetActiveTimeSlot returns the new slot. *)
Theorem CreateTimeSlot_then_lookup db taskName startTime :
  well_keyed db →
  ∃ db' slot,
    Database.CreateTimeSlot db taskName startTime None = (db', Ok slot)
    ∧ slot = TimeSlot.mk (TimeSlot.ID slot) taskName startTime None 0
    ∧ TimeSlot.IsActive slot = true
    ∧ Database.select_id (TimeSlot.ID slot) (Database.rows db')
      = Some (Database.mkRow (TimeSlot.ID slot) taskName (time.wall startTime) None 0)
    ∧ (∀ r, r ∈ Database.rows db →
            Database.id r < TimeSlot.ID slot
            ∧ Database.select_id (Database.id r) (Database.rows db') = Some r)
    ∧ (active_rows db = [] →
       Database.GetActiveTimeSlot db' None
       = Ok (Some (TimeSlot.mk (TimeSlot.ID slot) taskName
                     (time.stripMono startTime) None 0))).
Proof.
  intros Hwk. eexists _, _. split; [reflexivity|]. simpl.
  split; [done|]. split; [done|].
  destruct (next_id_fresh db) as [_ Hfresh].
  pose proof (CreateTimeSlot_well_keyed db taskName startTime None Hwk) as Hwk'.
  simpl in Hwk'.
  split.
  { apply (select_id_unique _ _ _ Hwk'); [|done]. simpl.
    apply elem_of_app. right. left. }
  split.
  { intros r Hr. split; [by apply Hfresh|].
    apply select_id_app_l. by apply select_id_unique. }
  intros Hnone. unfold Database.GetActiveTimeSlot. simpl.
  rewrite filter_app. fold (active_rows db). rewrite Hnone. reflexivity.
Qed.

Lemma CreateTimeSlot_then_lookup_witness :
  ∃ db' slot,
    Database.CreateTimeSlot Sample.one_closed "review" (Sample.at_ 5) None
    = (db', Ok slot)
    ∧ TimeSlot.ID slot = 2
    ∧ Database.GetActiveTimeSlot db' None
      = Ok (Some (TimeSlot.mk 2 "review"
                    (time.mkTime (Sample.T0 + 5 * time.Second) None) None 0)).
Proof.
  assert (well_keyed Sample.one_closed) as Hwk.
  { split; simpl.
    - apply (bool_decide_unpack _). vm_compute. exact I.
    - repeat constructor; vm_compute; discriminate. }
  destruct (CreateTimeSlot_then_lookup Sample.one_closed "review" (Sample.at_ 5) Hwk)
    as (db' & slot & Hc & Hslot & _ & _ & _ & Hactive).
  exists db', slot. split; [exact Hc|].
  injection Hc as <- <-. split; [reflexivity|]. exact (Hactive eq_refl).
Defined.

(** ** More on the timer *)

Section TimerMore.

Variable parseRFC3339 : string → result Z.

Lemma api_step_settled a c :
  settled (App.timer a) → settled (App.timer (api_step parseRFC3339 a c)).
Proof.
  intros Hs. destruct a as [db tm].
  destruct c as [taskName env|env|i taskName startStr endStr io|i io]; simpl in *.
  - unfold App.StartTimer. destruct (decide (taskName = "")); [done|]. simpl.
    pose proof (Start_settled tm taskName db env Hs) as Hs'.
    destruct (Timer.Start tm taskName db env) as [[tm' db'] res]. done.
  - unfold App.StopTimer. simpl.
    pose proof (Stop_settled tm db env Hs) as Hs'.
    destruct (Timer.Stop tm db env) as [[tm' db'] res]. done.
  - unfold App.UpdateTimeSlot. simpl.
    destruct (parseRFC3339 startStr) as [st|err]; [|done].
    destruct (decide (endStr = "")).
    + destruct (Database.UpdateTimeSlot db i taskName (time.mkTime st None) None io);
        done.
    + destruct (parseRFC3339 endStr) as [et|err]; [|done].
      destruct (Database.UpdateTimeSlot db i taskName (time.mkTime st None)
                  (Some (time.mkTime et None)) io); done.
  - unfold App.DeleteTimeSlot. simpl.
    destruct (Database.DeleteTimeSlot db i io); done.
Qed.

Lemma api_run_settled a calls :
  settled (App.timer a) → settled (App.timer (api_run parseRFC3339 a calls)).
Proof.
  revert a. induction calls as [|c calls IH]; intros a Hs; [done|].
  simpl. apply IH. by apply api_step_settled.
Qed.

Lemma NewApp_settled disk ioOpen ioLoad a :
  App.NewApp disk ioOpen ioLoad = Ok a → settled (App.timer a).
Proof.
  unfold App.NewApp, NewDatabase. intros Hnew.
  destruct ioOpen; [by simplify_eq|].
  pose proof (LoadActiveSlot_settled Timer.NewTimer disk ioLoad NewTimer_settled)
    as Hs.
  destruct (Timer.LoadActiveSlot Timer.NewTimer disk ioLoad) as [tm [err|]];
    by simplify_eq.
Qed.

End TimerMore.

(** X9. The two flags of the timer agree in every state the application
    reaches. From NewApp on, after any sequence of API calls with any
    failures, IsRunning is true exactly when the timer holds a slot, that
    slot has no end time, and when IsRunning is false the timer is Idle and
    GetElapsedTime is zero. *)
Theorem timer_flags_agree (parseRFC3339 : string → result Z)
    disk ioOpen ioLoad a calls :
  App.NewApp disk ioOpen ioLoad = Ok a →
  let tm := App.timer (api_run parseRFC3339 a calls) in
  (Timer.IsRunning tm = true ↔ ∃ s, Timer.GetActiveSlot tm = Some s)
  ∧ (∀ s, Timer.GetActiveSlot tm = Some s → TimeSlot.IsActive s = true)
  ∧ (Timer.IsRunning tm = false ↔ Idle tm)
  ∧ (Timer.IsRunning tm = false → ∀ clock, Timer.GetElapsedTime tm clock = 0).
Proof.
  intros Hnew tm.
  pose proof (api_run_settled parseRFC3339 a calls (NewApp_settled _ _ _ _ Hnew))
    as Hs.
  fold tm in Hs. clearbody tm.
  unfold settled, Idle, Timer.IsRunning, Timer.GetActiveSlot, TimeSlot.IsActive,
    Timer.GetElapsedTime in *.
  destruct (Timer.activeSlot tm) as [s|].
  - destruct Hs as [Hrun Hend]. rewrite Hrun, Hend.
    split; [split; [by exists s | done]|].
    split; [intros s' [= <-]; by rewrite Hend|].
    split; [split; done | done].
  - rewrite Hs. split; [split; [done | by intros [s ?]]|].
    split; [done|]. split; done.
Qed.

Lemma timer_flags_agree_witness :
  let tm := App.timer (api_run Sample.parseRFC3339 Sample.loaded Sample.api_calls) in
  Timer.IsRunning tm = false ∧ Idle tm.
Proof.
  destruct (timer_flags_agree Sample.parseRFC3339 Sample.one_open None None
              Sample.loaded Sample.api_calls eq_refl) as (_ & _ & Hidle & _).
  split; [reflexivity|]. exact (proj1 Hidle eq_refl).
Defined.

(** X10. A Stop whose StopTimeSlot fails returns that error and changes
    nothing: the store is as before and the timer still holds its slot and
    still reports running. *)
Theorem Stop_aborts_when_StopTimeSlot_fails tm db s env db1 err :
  Timer.activeSlot tm = Some s →
  TimeSlot.IsActive s = true →
  Database.StopTimeSlot db (TimeSlot.ID s) (Timer.now env)
    (Timer.select env) (Timer.update env) = (db1, Some err) →
  Timer.Stop tm db env = (tm, db, Err err).
Proof.
  intros Hs Hact Hstop. unfold Timer.Stop. rewrite Hs, Hact, Hstop. simpl.
  by rewrite (StopTimeSlot_Err _ _ _ _ _ _ _ Hstop).
Qed.

Lemma Stop_aborts_when_StopTimeSlot_fails_witness :
  Timer.Stop (App.timer Sample.loaded) (App.database Sample.loaded)
    (Timer.mkStopEnv (Sample.at_ 9) None (Some "disk full"))
  = (App.timer Sample.loaded, App.database Sample.loaded,
     Err (Errorf "failed to stop time slot" (ErrDriver "disk full"))).
Proof.
  exact (Stop_aborts_when_StopTimeSlot_fails (App.timer Sample.loaded)
           (App.database Sample.loaded)
           (Database.scan (Database.mkRow 2 "writing" Sample.T0 None 0))
           (Timer.mkStopEnv (Sample.at_ 9) None (Some "disk full"))
           (App.database Sample.loaded) _ eq_refl eq_refl eq_refl).
Defined.

(** X11. A Start whose implicit stop succeeds and whose INSERT fails
    returns the INSERT error with the old slot already closed in the store:
    the timer is returned unchanged, still running on the old slot, whose
    row now has an end time; with a coherent timer no slot of the store is
    open any more. *)
Theorem Start_insert_failure_after_implicit_stop tm db B rB taskName env detail :
  Timer.activeSlot tm = Some B →
  TimeSlot.IsActive B = true →
  Database.select_id (TimeSlot.ID B) (Database.rows db) = Some rB →
  Timer.stop_select env = None →
  Timer.stop_update env = None →
  Timer.create_insert env = Some detail →
  ∃ db',
    Timer.Start tm taskName db env
    = (tm, db', Err (Errorf "failed to create time slot" (ErrDriver detail)))
    ∧ Database.select_id (TimeSlot.ID B) (Database.rows db')
      = Some (Database.mkRow (TimeSlot.ID B) (Database.task_name rB)
                (Database.start_time rB)
                (Some (time.wall (Timer.stop_now env)))
                (time.Seconds
                   (time.Sub (Timer.stop_now env)
                      (time.mkTime (Database.start_time rB) None))))
    ∧ length (Database.rows db') = length (Database.rows db)
    ∧ (coherent tm db → active_rows db' = []).
Proof.
  intros HB Hact Hsel H1 H2 H3.
  destruct (select_id_Some _ _ _ Hsel) as [_ Hid].
  destruct (Database.StopTimeSlot db (TimeSlot.ID B) (Timer.stop_now env) None None)
    as [db1 err] eqn:Hstop.
  assert (err = None) as ->.
  { unfold Database.StopTimeSlot in Hstop. rewrite Hsel in Hstop. by simplify_eq. }
  exists db1. split.
  { unfold Timer.Start. rewrite HB, Hact, H1, H2, Hstop.
    unfold Database.CreateTimeSlot. by rewrite H3. }
  pose proof Hstop as Hstop'.
  unfold Database.StopTimeSlot in Hstop'. rewrite Hsel in Hstop'. simplify_eq.
  simpl. split.
  { rewrite select_id_update_id by done. rewrite Hsel. simpl. by rewrite Hid. }
  split.
  { unfold Database.update_id. by rewrite length_fmap. }
  intros Hco. by eapply implicit_stop_clears.
Qed.

Lemma Start_insert_failure_after_implicit_stop_witness :
  ∃ db',
    Timer.Start (App.timer Sample.loaded) "mail" (App.database Sample.loaded)
      (Timer.mkStartEnv (Sample.at_ 400) None None (Sample.at_ 400) (Some "disk full"))
    = (App.timer Sample.loaded, db',
       Err (Errorf "failed to create time slot" (ErrDriver "disk full")))
    ∧ Database.select_id 2 (Database.rows db')
      = Some (Database.mkRow 2 "writing" Sample.T0
                (Some (Sample.T0 + 400 * time.Second)) 400).
Proof.
  destruct (Start_insert_failure_after_implicit_stop (App.timer Sample.loaded)
              (App.database Sample.loaded)
              (Database.scan (Database.mkRow 2 "writing" Sample.T0 None 0))
              (Database.mkRow 2 "writing" Sample.T0 None 0) "mail"
              (Timer.mkStartEnv (Sample.at_ 400) None None (Sample.at_ 400)
                 (Some "disk full")) "disk full"
              eq_refl eq_refl eq_refl eq_refl eq_refl eq_refl)
    as (db' & HS & Hrow & _).
  exists db'. split; [exact HS | exact Hrow].
Defined.

(** X12. Deleting the slot the timer is running on leaves the timer stuck.
    After DeleteTimeSlot of the id of the timer's active slot, every Stop
    and every Start fails (with "failed to get start time" wrapping
    sql.ErrNoRows when the SELECT executes) and changes neither the timer
    nor the store, whatever sequence of Start and Stop calls is made. *)
Theorem timer_stuck_after_deleting_its_slot a s :
  Timer.activeSlot (App.timer a) = Some s →
  TimeSlot.IsActive s = true →
  let a' := (App.DeleteTimeSlot a (TimeSlot.ID s) None).1 in
  App.timer a' = App.timer a
  ∧ (∀ env, ∃ err,
       Timer.Stop (App.timer a') (App.database a') env
       = (App.timer a', App.database a', Err err)
       ∧ (Timer.select env = None →
          err = Errorf "failed to get start time" ErrNoRows))
  ∧ (∀ taskName env, ∃ err,
       Timer.Start (App.timer a') taskName (App.database a') env
       = (App.timer a', App.database a', Err err)
       ∧ (Timer.stop_select env = None →
          err = Errorf "failed to get start time" ErrNoRows))
  ∧ ∀ calls, run a' calls = a'.
Proof.
  intros Hs Hact a'. destruct a as [db tm]. simpl in *.
  unfold App.DeleteTimeSlot in a'. simpl in a'.
  set (db' := Database.mk (filter (λ r, Database.id r ≠ TimeSlot.ID s)
                             (Database.rows db)) (Database.sequence db)) in *.
  assert (Database.select_id (TimeSlot.ID s) (Database.rows db') = None) as Hnone.
  { apply select_id_absent. intros r Hr.
    by apply list_elem_of_filter in Hr as [? _]. }
  assert (∀ t ioS ioU, ∃ err,
            Database.StopTimeSlot db' (TimeSlot.ID s) t ioS ioU = (db', Some err)
            ∧ (ioS = None → err = Errorf "failed to get start time" ErrNoRows))
    as Hfail.
  { intros t ioS ioU. unfold Database.StopTimeSlot. rewrite Hnone.
    destruct ioS; eexists; split; done. }
  assert (∀ env, ∃ err,
            Timer.Stop tm db' env = (tm, db', Err err)
            ∧ (Timer.select env = None →
               err = Errorf "failed to get start time" ErrNoRows)) as HStop.
  { intros env.
    destruct (Hfail (Timer.now env) (Timer.select env) (Timer.update env))
      as (err & Hstop & Herr).
    exists err. split; [|done].
    unfold Timer.Stop. rewrite Hs, Hact. simpl. by rewrite Hstop. }
  assert (∀ taskName env, ∃ err,
            Timer.Start tm taskName db' env = (tm, db', Err err)
            ∧ (Timer.stop_select env = None →
               err = Errorf "failed to get start time" ErrNoRows)) as HStart.
  { intros taskName env.
    destruct (Hfail (Timer.stop_now env) (Timer.stop_select env)
                (Timer.stop_update env)) as (err & Hstop & Herr).
    exists err. split; [|done].
    unfold Timer.Start. rewrite Hs, Hact. by rewrite Hstop. }
  split; [done|]. split; [exact HStop|]. split; [exact HStart|].
  induction calls as [|c calls IH]; [done|]. simpl.
  assert (step a' c = a') as ->; [|exact IH].
  destruct c as [taskName env|env]; unfold step, a'; simpl.
  - destruct (HStart taskName env) as (err & -> & _). done.
  - destruct (HStop env) as (err & -> & _). done.
Qed.

Lemma timer_stuck_after_deleting_its_slot_witness :
  let a' := (App.DeleteTimeSlot Sample.loaded 2 None).1 in
  Database.rows (App.database a')
  = [Database.mkRow 1 "email" (Sample.T0 - 7200 * time.Second)
       (Some (Sample.T0 - 3600 * time.Second)) 3600]
  ∧ Timer.IsRunning (App.timer a') = true
  ∧ run a' Sample.calls = a'.
Proof.
  destruct (timer_stuck_after_deleting_its_slot Sample.loaded
              (Database.scan (Database.mkRow 2 "writing" Sample.T0 None 0))
              eq_refl eq_refl) as (_ & _ & _ & Hrun).
  split; [reflexivity|]. split; [reflexivity|]. exact (Hrun Sample.calls).
Defined.






(** ** The forms of the frontend *)

(** X16. The edit dialog calls UpdateTimeSlot only with a valid form: the
    id of the edited slot, the trimmed task name, which is not empty, a
    start that is a valid date, and either no end (the end box unchecked or
    its text empty) or an end that is a valid date strictly after the
    start. Every other form ends in an alert. *)
Theorem handleSave_calls_update_only_when_valid
    (trim : string → string) (newDate : string → option Z)
    (toISOString : Z → string)
    slot_id taskName startText endText hasEndTime i n st en :
  EditTimeSlotModal.handleSave trim newDate toISOString slot_id taskName
    startText endText hasEndTime
  = EditTimeSlotModal.CallUpdate i n st en →
  i = slot_id
  ∧ n = trim taskName
  ∧ n ≠ ""
  ∧ ∃ s, newDate startText = Some s
         ∧ st = toISOString s
         ∧ ((en = "" ∧ (hasEndTime = false ∨ endText = ""))
            ∨ (hasEndTime = true ∧ endText ≠ ""
               ∧ ∃ e, newDate endText = Some e ∧ s < e ∧ en = toISOString e)).
Proof.
  unfold EditTimeSlotModal.handleSave. intros H.
  destruct (decide (trim taskName = "")) as [|Hname]; [done|].
  destruct hasEndTime; simpl in H.
  - destruct (decide (endText = "")) as [->|Hend].
    + simpl in H. destruct (newDate startText) as [s|]; [|done].
      simplify_eq. repeat split; try done. exists s. split; [done|].
      split; [done|]. left. split; [done | by right].
    + rewrite bool_decide_eq_false_2 in H by done. simpl in H.
      destruct (newDate endText) as [e|]; [|done].
      destruct (newDate startText) as [s|]; [|done].
      destruct (Z.leb_spec e s); [done|]. simplify_eq.
      repeat split; try done. exists s. split; [done|]. split; [done|].
      right. split; [done|]. split; [done|]. by exists e.
  - destruct (newDate startText) as [s|]; [|done].
    simplify_eq. repeat split; try done. exists s. split; [done|].
    split; [done|]. left. split; [done | by left].
Qed.

Lemma handleSave_calls_update_only_when_valid_witness :
  EditTimeSlotModal.handleSave id Sample.newDate Sample.toISOString 1 "email"
    "2023-11-14T22:12" "2023-11-14T22:13" true
  = EditTimeSlotModal.CallUpdate 1 "email" "2023-11-14T22:12:00.000Z"
      "2023-11-14T22:13:00.000Z"
  ∧ Sample.T0 `div` 1000000 - 80000 < Sample.T0 `div` 1000000 - 20000.
Proof.
  split; [reflexivity|].
  destruct (handleSave_calls_update_only_when_valid id Sample.newDate
              Sample.toISOString 1 "email" "2023-11-14T22:12" "2023-11-14T22:13"
              true 1 "email" "2023-11-14T22:12:00.000Z" "2023-11-14T22:13:00.000Z"
              eq_refl)
    as (_ & _ & _ & s & Hs & _ & [[Hen _]|(_ & _ & e & He & Hlt & _)]).
  - discriminate Hen.
  - injection Hs as <-. injection He as <-. exact Hlt.
Defined.

(** X17. The timer view never sends an empty task name. When handleStart
    calls StartTimer the name is the trimmed input and is not empty, so
    App.StartTimer does not take its silent (nil, nil) return: it runs
    Timer.Start and returns either a slot or an error. *)
Theorem handleStart_never_sends_an_empty_name (trim : string → string) taskName n :
  TimerView.handleStart trim taskName = TimerView.CallStartTimer n →
  n = trim taskName
  ∧ n ≠ ""
  ∧ ∀ a env,
      App.StartTimer a n env
      = (let '(tm, db, r) := Timer.Start (App.timer a) n (App.database a) env in
         (App.mk db tm, r))
      ∧ (App.StartTimer a n env).2 ≠ Ok None.
Proof.
  unfold TimerView.handleStart. intros H.
  destruct (decide (trim taskName = "")) as [|Hname]; [done|]. simplify_eq.
  split; [done|]. split; [done|]. intros a env.
  unfold App.StartTimer. rewrite decide_False by done. split; [done|].
  unfold Timer.Start.
  destruct (match Timer.activeSlot (App.timer a) with
            | Some s => _
            | None => _
            end) as [db1 [err|]]; [done|].
  destruct (Database.CreateTimeSlot db1 (trim taskName) (Timer.create_now env)
              (Timer.create_insert env)) as [db2 [slot|err]]; done.
Qed.

Lemma handleStart_never_sends_an_empty_name_witness :
  TimerView.handleStart id "writing" = TimerView.CallStartTimer "writing"
  ∧ (App.StartTimer Sample.idle "writing"
       (Sample.no_fault_start (Sample.at_ 0) (Sample.at_ 1))).2
    ≠ Ok None.
Proof.
  split; [reflexivity|].
  exact (proj2 (proj2 (proj2 (handleStart_never_sends_an_empty_name id "writing"
                                 "writing" eq_refl))
                  Sample.idle (Sample.no_fault_start (Sample.at_ 0) (Sample.at_ 1)))).
Defined.

(** ** The long-session monitor *)

Section Alerts.

Lemma saturate_range d :
  time.minDuration ≤ time.saturate d ≤ time.maxDuration.
Proof.
  unfold time.saturate.
  destruct (Z.ltb_spec d time.minDuration); [by vm_compute|].
  destruct (Z.ltb_spec time.maxDuration d); [by vm_compute | lia].
Qed.

Lemma GetElapsedTime_range tm clock :
  time.minDuration ≤ Timer.GetElapsedTime tm clock ≤ time.maxDuration.
Proof.
  unfold Timer.GetElapsedTime, time.Since, time.Sub.
  destruct (negb (Timer.isRunning tm) || bool_decide (Timer.activeSlot tm = None));
    [by vm_compute | apply saturate_range].
Qed.

(** The whole seconds of a Duration, counted back in nanoseconds, fit an
    int64: the multiplication of the monitor does not wrap. *)
Lemma Seconds_back d :
  time.minDuration ≤ d ≤ time.maxDuration →
  NotificationManager.int64 (time.Seconds d * time.Second)
  = time.Seconds d * time.Second.
Proof.
  intros [Hlo Hhi]. unfold NotificationManager.int64, time.Seconds.
  assert (time.Second ≠ 0) as Hne by discriminate.
  pose proof (Z.quot_rem' d time.Second) as Hqr.
  assert (time.minDuration ≤ d `quot` time.Second * time.Second ≤ time.maxDuration)
    as [H1 H2].
  { assert (time.minDuration ≤ 0 ∧ 0 ≤ time.maxDuration) as [Hmin Hmax]
      by (by vm_compute).
    destruct (Z.le_gt_cases 0 d) as [Hd|Hd].
    - pose proof (Z.rem_nonneg d time.Second Hne Hd) as Hrem.
      pose proof (Z.quot_pos d time.Second Hd ltac:(reflexivity)) as Hquot.
      revert Hqr Hrem Hquot.
      generalize (d `quot` time.Second), (d `rem` time.Second).
      change time.Second with 1000000000. intros q rm Hqr Hrem Hquot. lia.
    - pose proof (Z.rem_nonpos d time.Second Hne ltac:(lia)) as Hrem.
      assert (d `quot` time.Second ≤ 0) as Hquot.
      { pose proof (Z.quot_le_mono d 0 time.Second ltac:(reflexivity) ltac:(lia)) as Hq.
        by rewrite Z.quot_0_l in Hq by done. }
      revert Hqr Hrem Hquot.
      generalize (d `quot` time.Second), (d `rem` time.Second).
      change time.Second with 1000000000. intros q rm Hqr Hrem Hquot. lia. }
  revert H1 H2. generalize (d `quot` time.Second * time.Second).
  unfold time.minDuration, time.maxDuration. intros z H1 H2.
  rewrite Z.mod_small by lia. lia.
Qed.

Lemma elapsed_duration a clock :
  NotificationManager.int64 (App.GetElapsedTime a clock * time.Second)
  = App.GetElapsedTime a clock * time.Second.
Proof. unfold App.GetElapsedTime. apply Seconds_back, GetElapsedTime_range. Qed.

Lemma two_hours_in_seconds e : 2 * time.Hour ≤ e * time.Second ↔ 7200 ≤ e.
Proof.
  change (2 * time.Hour) with (7200 * 1000000000).
  change time.Second with 1000000000. lia.
Qed.

End Alerts.

(** X18. The monitor alerts only for long sessions. With the interval of
    two hours that NewNotificationManager sets, a tick calls
    SendNotification only if the timer was seen running, the elapsed time
    read was at least 7200 seconds, at least two hours had passed since the
    last alert and the timer was seen holding a slot; the message names the
    task of that slot, and the tick records the clock as the time of the
    last alert whatever SendNotification returns. A tick that does not alert
    leaves the manager unchanged. *)
Theorem tick_alerts_only_long_sessions n env :
  NotificationManager.notifyInterval n = 2 * time.Hour →
  match NotificationManager.tick n env with
  | (n', Some (title, message)) =>
      App.IsTimerRunning (NotificationManager.at_IsTimerRunning env) = true
      ∧ 7200 ≤ App.GetElapsedTime (NotificationManager.at_GetElapsedTime env)
                 (NotificationManager.clock_elapsed env)
      ∧ 2 * time.Hour
        ≤ time.Since (NotificationManager.clock_since env)
            (NotificationManager.lastNotifyTime n)
      ∧ (∃ slot,
           App.GetActiveTimeSlot (NotificationManager.at_GetActiveTimeSlot env)
           = Some slot
           ∧ message
             = "You've been working on '" +:+ TimeSlot.TaskName slot +:+ "' for "
               +:+ NotificationManager.formatDuration
                     (App.GetElapsedTime (NotificationManager.at_GetElapsedTime env)
                        (NotificationManager.clock_elapsed env) * time.Second))
      ∧ title = "Long Session Alert"
      ∧ n' = NotificationManager.mk (NotificationManager.clock_now env)
               (2 * time.Hour)
  | (n', None) => n' = n
  end.
Proof.
  intros Hint. unfold NotificationManager.tick.
  rewrite elapsed_duration, Hint.
  destruct (App.IsTimerRunning (NotificationManager.at_IsTimerRunning env)); [|done].
  destruct (Z.leb_spec (2 * time.Hour)
              (App.GetElapsedTime (NotificationManager.at_GetElapsedTime env)
                 (NotificationManager.clock_elapsed env) * time.Second))
    as [Hel|]; [|done].
  destruct (Z.leb_spec (2 * time.Hour)
              (time.Since (NotificationManager.clock_since env)
                 (NotificationManager.lastNotifyTime n))) as [Hsince|]; [|done].
  destruct (App.GetActiveTimeSlot (NotificationManager.at_GetActiveTimeSlot env))
    as [slot|]; [|done].
  split; [done|]. split; [by apply two_hours_in_seconds|]. split; [done|].
  split; [by exists slot|]. done.
Qed.

Lemma tick_alerts_only_long_sessions_witness :
  NotificationManager.tick NotificationManager.NewNotificationManager
    (NotificationManager.mkTickEnv Sample.loaded Sample.loaded (Sample.at_ 7500)
       (Sample.at_ 7500) Sample.loaded (Sample.at_ 7501))
  = (NotificationManager.mk (Sample.at_ 7501) (2 * time.Hour),
     Some ("Long Session Alert",
           "You've been working on 'writing' for 2 hours and 5 minutes"))
  ∧ 7200 ≤ App.GetElapsedTime Sample.loaded (Sample.at_ 7500).
Proof.
  pose proof (tick_alerts_only_long_sessions
                NotificationManager.NewNotificationManager
                (NotificationManager.mkTickEnv Sample.loaded Sample.loaded
                   (Sample.at_ 7500) (Sample.at_ 7500) Sample.loaded
                   (Sample.at_ 7501)) eq_refl) as H.
  split; [reflexivity|].
  exact (proj1 (proj2 H)).
Defined.

(** X19. At most one alert per two hours of the monotonic clock. After a
    tick that alerted, with a clock reading that carries a monotonic
    reading, every tick at which fewer than two hours of monotonic time have
    passed since then sends nothing and leaves the manager unchanged,
    however long the session and whatever the wall clock shows. *)
Theorem no_second_alert_within_the_interval n env1 n1 alert env2 m1 m2 :
  NotificationManager.notifyInterval n = 2 * time.Hour →
  NotificationManager.tick n env1 = (n1, Some alert) →
  time.mono (NotificationManager.clock_now env1) = Some m1 →
  time.mono (NotificationManager.clock_since env2) = Some m2 →
  m2 - m1 < 2 * time.Hour →
  NotificationManager.tick n1 env2 = (n1, None).
Proof.
  intros Hint Htick Hm1 Hm2 Hlt.
  assert (n1 = NotificationManager.mk (NotificationManager.clock_now env1)
                 (2 * time.Hour)) as ->.
  { unfold NotificationManager.tick in Htick. rewrite Hint in Htick.
    destruct (App.IsTimerRunning _); [|by simplify_eq].
    destruct (_ <=? _); [|by simplify_eq].
    destruct (_ <=? _); [|by simplify_eq].
    destruct (App.GetActiveTimeSlot _); by simplify_eq. }
  unfold NotificationManager.tick. simpl.
  destruct (App.IsTimerRunning _); [|done].
  destruct (_ <=? _); [|done].
  unfold time.Since, time.Sub. rewrite Hm1, Hm2.
  assert (time.saturate (m2 - m1) < 2 * time.Hour) as Hsat.
  { unfold time.saturate.
    destruct (Z.ltb_spec (m2 - m1) time.minDuration); [by vm_compute|].
    destruct (Z.ltb_spec time.maxDuration (m2 - m1)); [|done].
    assert (2 * time.Hour < time.maxDuration) by (by vm_compute). lia. }
  destruct (Z.leb_spec (2 * time.Hour) (time.saturate (m2 - m1))); [lia | done].
Qed.

Lemma no_second_alert_within_the_interval_witness :
  NotificationManager.tick
    (NotificationManager.mk (Sample.at_ 7501) (2 * time.Hour))
    (NotificationManager.mkTickEnv Sample.loaded Sample.loaded (Sample.at_ 14000)
       (time.mkTime (Sample.T0 + 86400 * time.Second) (Some (14005 * time.Second)))
       Sample.loaded (Sample.at_ 14001))
  = (NotificationManager.mk (Sample.at_ 7501) (2 * time.Hour), None).
Proof.
  refine (no_second_alert_within_the_interval
            NotificationManager.NewNotificationManager
            (NotificationManager.mkTickEnv Sample.loaded Sample.loaded
               (Sample.at_ 7500) (Sample.at_ 7500) Sample.loaded (Sample.at_ 7501))
            _ _
            (NotificationManager.mkTickEnv Sample.loaded Sample.loaded
               (Sample.at_ 14000)
               (time.mkTime (Sample.T0 + 86400 * time.Second)
                  (Some (14005 * time.Second)))
               Sample.loaded (Sample.at_ 14001))
            (7506 * time.Second) (14005 * time.Second)
            eq_refl eq_refl eq_refl eq_refl _).
  vm_compute. reflexivity.
Defined.

(** X20. The first alert is not held back. A manager that has never
    alerted keeps the zero time as the time of its last alert; the time since
    then exceeds every Duration and saturates, so at any clock reading after
    1970 a tick that sees the timer running on a slot for at least 7200
    seconds sends the alert. *)
Theorem first_alert_is_sent env slot :
  App.IsTimerRunning (NotificationManager.at_IsTimerRunning env) = true →
  7200 ≤ App.GetElapsedTime (NotificationManager.at_GetElapsedTime env)
           (NotificationManager.clock_elapsed env) →
  App.GetActiveTimeSlot (NotificationManager.at_GetActiveTimeSlot env) = Some slot →
  0 ≤ time.wall (NotificationManager.clock_since env) →
  time.Since (NotificationManager.clock_since env) time.zero = time.maxDuration
  ∧ NotificationManager.tick NotificationManager.NewNotificationManager env
    = (NotificationManager.mk (NotificationManager.clock_now env) (2 * time.Hour),
       Some ("Long Session Alert",
             "You've been working on '" +:+ TimeSlot.TaskName slot +:+ "' for "
             +:+ NotificationManager.formatDuration
                   (App.GetElapsedTime (NotificationManager.at_GetElapsedTime env)
                      (NotificationManager.clock_elapsed env) * time.Second))).
Proof.
  intros Hrun Hel Hslot Hwall.
  assert (time.Since (NotificationManager.clock_since env) time.zero
          = time.maxDuration) as Hsince.
  { unfold time.Since. change time.zero with (time.mkTime (-62135596800 * time.Second) None).
    rewrite Sub_stored. unfold time.saturate.
    assert (time.maxDuration < 62135596800 * time.Second) by (by vm_compute).
    assert (time.minDuration < 0) by (by vm_compute).
    assert (0 < time.maxDuration) by (by vm_compute).
    destruct (Z.ltb_spec (time.wall (NotificationManager.clock_since env)
                          - -62135596800 * time.Second) time.minDuration); [lia|].
    destruct (Z.ltb_spec time.maxDuration
                (time.wall (NotificationManager.clock_since env)
                 - -62135596800 * time.Second)); [done | lia]. }
  split; [done|].
  unfold NotificationManager.tick. rewrite Hrun, elapsed_duration. simpl.
  rewrite (proj2 (Z.leb_le _ _) (proj2 (two_hours_in_seconds _) Hel)).
  rewrite Hsince, Hslot. done.
Qed.

Lemma first_alert_is_sent_witness :
  NotificationManager.tick NotificationManager.NewNotificationManager
    (NotificationManager.mkTickEnv Sample.loaded Sample.loaded (Sample.at_ 7200)
       (Sample.at_ 7200) Sample.loaded (Sample.at_ 7200))
  = (NotificationManager.mk (Sample.at_ 7200) (2 * time.Hour),
     Some ("Long Session Alert", "You've been working on 'writing' for 2 hours")).
Proof.
  refine (proj2 (first_alert_is_sent
                   (NotificationManager.mkTickEnv Sample.loaded Sample.loaded
                      (Sample.at_ 7200) (Sample.at_ 7200) Sample.loaded
                      (Sample.at_ 7200))
                   (Database.scan (Database.mkRow 2 "writing" Sample.T0 None 0))
                   eq_refl _ eq_refl _)).
  - vm_compute. discriminate.
  - vm_compute. discriminate.
Defined.



(** ** The tray monitor *)

Section Tray.

Lemma space_inside (s1 s2 t : string) :
  s1 +:+ String (Ascii.Ascii false false false false false true false false) s2 = t → In (Ascii.Ascii false false false false false true false false) (String.list_ascii_of_string t).
Proof.
  revert t. induction s1 as [|c s1 IH]; intros t <-; simpl.
  - by left.
  - right. by apply IH.
Qed.

Lemma elapsed_title_is_not_Stopped (name clock : string) :
  "Timer: " +:+ name +:+ " (" +:+ clock +:+ ")" ≠ "Timer: Stopped".
Proof.
  intros H. cbn in H. injection H as H.
  apply (space_inside name ("(" +:+ clock +:+ ")")) in H. simpl in H.
  repeat (destruct H as [H|H]; [discriminate H|]). done.
Qed.

Lemma running_title_is_not_Stopped (name : string) :
  "Timer: Running - " +:+ name ≠ "Timer: Stopped".
Proof. intros H. cbn in H. discriminate H. Qed.

Lemma nonempty_length (l : list Byte.byte) : l ≠ [] → (0 <? length l)%nat = true.
Proof. destruct l; [done|]. intros _. reflexivity. Qed.

Lemma updateStatus_agrees s tr v :
  tray_agrees s tr →
  let '(s', cs) := SystrayManager.updateStatus s v in
  tray_agrees s' (foldl SystrayManager.exec tr cs)
  ∧ SystrayManager.isRunning s'
    = App.IsTimerRunning (SystrayManager.at_IsTimerRunning v)
  ∧ SystrayManager.iconActive s' = SystrayManager.iconActive s
  ∧ SystrayManager.iconInactive s' = SystrayManager.iconInactive s.
Proof.
  intros [Htitle Hicon]. unfold SystrayManager.updateStatus.
  destruct s as [was act inact]. simpl in *.
  destruct (App.IsTimerRunning (SystrayManager.at_IsTimerRunning v)) eqn:Hrun;
    destruct was; simpl.
  - (* still running *)
    destruct (App.GetActiveTimeSlot (SystrayManager.at_GetActiveTimeSlot v))
      as [slot|]; simpl.
    + split; [|done]. split; simpl; [|done].
      split; [done|]. intros H. by apply elapsed_title_is_not_Stopped in H.
    + split; [|done]. split; done.
  - (* started *)
    split; [|done]. split; simpl.
    + assert (∀ tr0 c, SystrayManager.statusTitle
                         (foldl SystrayManager.exec tr0
                            ((if (0 <? length act)%nat
                              then [SystrayManager.SetIcon act] else [])
                             ++ [SystrayManager.SetTitle c])) = c) as Hset.
      { intros tr0 c. rewrite foldl_app. done. }
      split; [done|]. intros H.
      destruct (App.GetActiveTimeSlot (SystrayManager.at_GetActiveTimeSlot v));
        rewrite Hset in H;
        [by apply running_title_is_not_Stopped in H | discriminate H].
    + intros Ha Hi. rewrite (nonempty_length act Ha). simpl.
      by destruct (App.GetActiveTimeSlot _).
  - (* stopped *)
    split; [|done]. split; simpl.
    + rewrite foldl_app. done.
    + intros Ha Hi. rewrite (nonempty_length inact Hi). done.
  - (* still stopped *)
    split; [|done]. split; done.
Qed.

Lemma monitor_snoc s tr views v :
  SystrayManager.monitor s tr (views ++ [v])
  = (let '(s1, tr1) := SystrayManager.monitor s tr views in
     let '(s', cs) := SystrayManager.updateStatus s1 v in
     (s', foldl SystrayManager.exec tr1 cs)).
Proof.
  unfold SystrayManager.monitor. rewrite foldl_snoc.
  destruct (foldl _ (s, tr) views) as [s1 tr1]. done.
Qed.

Lemma monitor_agrees s tr views :
  tray_agrees s tr →
  let '(s', tr') := SystrayManager.monitor s tr views in
  tray_agrees s' tr'
  ∧ SystrayManager.isRunning s'
    = match last views with
      | Some v => App.IsTimerRunning (SystrayManager.at_IsTimerRunning v)
      | None => SystrayManager.isRunning s
      end
  ∧ SystrayManager.iconActive s' = SystrayManager.iconActive s
  ∧ SystrayManager.iconInactive s' = SystrayManager.iconInactive s.
Proof.
  intros H0. induction views as [|v views IH] using rev_ind.
  - done.
  - rewrite monitor_snoc, last_snoc.
    destruct (SystrayManager.monitor s tr views) as [s1 tr1].
    destruct IH as (Hag & _ & Hact & Hinact).
    pose proof (updateStatus_agrees s1 tr1 v Hag) as Hstep.
    destruct (SystrayManager.updateStatus s1 v) as [s' cs].
    destruct Hstep as (Hag' & Hrun & Ha & Hin).
    repeat split; try apply Hag'; congruence.
Qed.

End Tray.

(** X22. The tray follows the timer. From onReady on, after any number
    of ticks of the monitor, whatever the ticks saw of the application: the
    manager's flag is what IsTimerRunning answered at the last tick, the
    title of the status item is "Timer: Stopped" exactly when that flag is
    false, and, when both icons are not empty, the icon shown is the active
    one exactly when the flag is true. *)
Theorem tray_follows_the_timer s views :
  SystrayManager.isRunning s = false →
  let '(s', tray) := SystrayManager.monitor s (SystrayManager.onReady s) views in
  SystrayManager.isRunning s'
  = match last views with
    | Some v => App.IsTimerRunning (SystrayManager.at_IsTimerRunning v)
    | None => false
    end
  ∧ (SystrayManager.isRunning s' = false
     ↔ SystrayManager.statusTitle tray = "Timer: Stopped")
  ∧ (SystrayManager.iconActive s ≠ [] → SystrayManager.iconInactive s ≠ [] →
     SystrayManager.icon tray
     = Some (if SystrayManager.isRunning s' then SystrayManager.iconActive s
             else SystrayManager.iconInactive s)).
Proof.
  intros Hinit.
  assert (tray_agrees s (SystrayManager.onReady s)) as H0.
  { split; simpl.
    - by rewrite Hinit.
    - intros _ Hi. rewrite Hinit, (nonempty_length _ Hi). done. }
  pose proof (monitor_agrees s (SystrayManager.onReady s) views H0) as H.
  destruct (SystrayManager.monitor s (SystrayManager.onReady s) views)
    as [s' tray].
  destruct H as ([Ht Hi] & Hrun & Ha & Hin).
  split; [by rewrite Hrun, Hinit|]. split; [done|].
  intros Hane Hine. rewrite <- Ha, <- Hin. apply Hi; congruence.
Qed.

Lemma tray_follows_the_timer_witness :
  SystrayManager.monitor
    (SystrayManager.mk false [Byte.x01] [Byte.x02])
    (SystrayManager.onReady (SystrayManager.mk false [Byte.x01] [Byte.x02]))
    [SystrayManager.mkView Sample.idle Sample.idle Sample.idle (Sample.at_ 1);
     SystrayManager.mkView Sample.loaded Sample.loaded Sample.loaded
       (Sample.at_ 2)]
  = (SystrayManager.mk true [Byte.x01] [Byte.x02],
     SystrayManager.mkTray (Some [Byte.x01]) "Timer: Running - writing")
  ∧ ("Timer: Running - writing" ≠ "Timer: Stopped").
Proof.
  pose proof (tray_follows_the_timer
                (SystrayManager.mk false [Byte.x01] [Byte.x02])
                [SystrayManager.mkView Sample.idle Sample.idle Sample.idle
                   (Sample.at_ 1);
                 SystrayManager.mkView Sample.loaded Sample.loaded
                   Sample.loaded (Sample.at_ 2)] eq_refl) as H.
  split; [reflexivity|].
  intros Heq. destruct H as (_ & Htitle & _).
  apply Htitle in Heq. discriminate Heq.
Defined.

(** X23. The clock in the tray is lossless. On a tick that finds the
    timer running as before, with an active slot, updateStatus leaves the
    manager as it is and sets one title, made of the task name and of hours,
    minutes and seconds that add up to the elapsed seconds exactly.  For an
    elapsed time that is not negative the minutes and the seconds are
    below 60; for a negative one (a wall clock behind the start of a slot
    loaded from the store) none of the three parts is positive. *)
Theorem tray_clock_is_lossless s v slot :
  SystrayManager.isRunning s = true →
  App.IsTimerRunning (SystrayManager.at_IsTimerRunning v) = true →
  App.GetActiveTimeSlot (SystrayManager.at_GetActiveTimeSlot v) = Some slot →
  let elapsed :=
    App.GetElapsedTime (SystrayManager.at_GetElapsedTime v)
      (SystrayManager.clock v) in
  ∃ h m sec,
    SystrayManager.updateStatus s v
    = (s, [SystrayManager.SetTitle
             ("Timer: " +:+ TimeSlot.TaskName slot +:+ " ("
              +:+ SystrayManager.formatTime h m sec +:+ ")")])
    ∧ h * 3600 + m * 60 + sec = elapsed
    ∧ (0 ≤ elapsed → 0 ≤ h ∧ 0 ≤ m < 60 ∧ 0 ≤ sec < 60)
    ∧ (elapsed ≤ 0 → h ≤ 0 ∧ -60 < m ≤ 0 ∧ -60 < sec ≤ 0).
Proof.
  intros Hwas Hrun Hslot elapsed.
  exists (elapsed `quot` 3600), ((elapsed `rem` 3600) `quot` 60),
    (elapsed `rem` 60).
  split.
  - unfold SystrayManager.updateStatus. destruct s as [was act inact].
    simpl in Hwas. subst was. rewrite Hrun, Hslot. reflexivity.
  - generalize elapsed. clear. intros e.
    Z.to_euclidean_division_equations. lia.
Qed.

Lemma tray_clock_is_lossless_witness :
  ∃ h m sec,
    SystrayManager.updateStatus (SystrayManager.mk true [] [])
      (SystrayManager.mkView Sample.loaded Sample.loaded Sample.loaded
         (Sample.at_ 7500))
    = (SystrayManager.mk true [] [],
       [SystrayManager.SetTitle
          ("Timer: writing (" +:+ SystrayManager.formatTime h m sec +:+ ")")])
    ∧ h * 3600 + m * 60 + sec = 7500
    ∧ (0 ≤ 7500 → 0 ≤ h ∧ 0 ≤ m < 60 ∧ 0 ≤ sec < 60)
    ∧ (7500 ≤ 0 → h ≤ 0 ∧ -60 < m ≤ 0 ∧ -60 < sec ≤ 0).
Proof.
  exact (tray_clock_is_lossless (SystrayManager.mk true [] [])
           (SystrayManager.mkView Sample.loaded Sample.loaded Sample.loaded
              (Sample.at_ 7500))
           (Database.scan (Database.mkRow 2 "writing" Sample.T0 None 0))
           eq_refl eq_refl eq_refl).
Defined.

